(** * Access and subscription controller of the Mistral bot (mistral_ai.py)

    A shallow embedding of the quota / subscription logic and of the
    payment-check handler, with the [users] table as a finite map from
    [user_id] to its row. *)

From Stdlib Require Import Ascii.
From stdpp Require Import gmap strings list fin_maps pretty.

Local Open Scope Z_scope.

(** ** Wall-clock time

    A naive [datetime] is the number of microseconds since the start of the
    proleptic calendar; [strftime("%Y-%m-%d")] names the calendar day, which is
    represented by the day number (two instants format to the same text
    exactly when they lie on the same day).  The TEXT column
    [subscribed_until] holds [isoformat()] of a datetime and is read back with
    [fromisoformat], so it is represented by the datetime itself.  The
    year range 1..9999 of Python's datetime comes in where the program
    computes a date ([subscription_until]). *)
Module Time.

Definition datetime := Z.
Definition date := Z.

Definition us_per_day : Z := 86400 * 1000000.

(** [timedelta(days=d)] *)
Definition timedelta_days (d : Z) : Z := d * us_per_day.

(** [t.strftime("%Y-%m-%d")] *)
Definition strftime_Ymd (t : datetime) : date := t `div` us_per_day.

End Time.
Import Time.

(** ** Settings *)
Definition MAX_FREE_REQUESTS_PER_DAY : Z := 10.

(** ** The [users] table *)
Record user_row := UserRow {
  subscribed_until : option datetime;
  last_request_date : option date;
  requests_today : Z;
  invoice_id : option string
}.

Abbreviation users_table := (gmap Z user_row).

Definition set_last_request (d : date) (n : Z) (r : user_row) : user_row :=
  {| subscribed_until := subscribed_until r;
     last_request_date := Some d;
     requests_today := n;
     invoice_id := invoice_id r |}.

Definition set_requests_today (f : Z -> Z) (r : user_row) : user_row :=
  {| subscribed_until := subscribed_until r;
     last_request_date := last_request_date r;
     requests_today := f (requests_today r);
     invoice_id := invoice_id r |}.

Definition set_subscribed_until (t : datetime) (r : user_row) : user_row :=
  {| subscribed_until := Some t;
     last_request_date := last_request_date r;
     requests_today := requests_today r;
     invoice_id := invoice_id r |}.

(** [INSERT INTO users (user_id, last_request_date, requests_today)
    VALUES (?, ?, 1)]: the unnamed columns are NULL. *)
Definition new_user_row (today : date) : user_row :=
  {| subscribed_until := None;
     last_request_date := Some today;
     requests_today := 1;
     invoice_id := None |}.

(** [UPDATE users SET requests_today = 0] *)
Definition reset_daily_limits (db : users_table) : users_table :=
  set_requests_today (fun _ => 0) <$> db.

(** The test [subscribed_until and datetime.now() < fromisoformat(...)] ;
    [now] is the clock as read at that test. *)
Definition subscription_active (now : datetime) (su : option datetime) : bool :=
  match su with
  | Some t => bool_decide (now < t)
  | None => false
  end.

(** [check_access]: [now0] is the clock read that gives [today], [now1] the
    later read of the subscription test.  Returns the answer and the table
    after the call. *)
Definition check_access (now0 now1 : datetime) (user_id : Z) (db : users_table)
  : bool * users_table :=
  let today := strftime_Ymd now0 in
  match db !! user_id with
  | None => (true, <[user_id := new_user_row today]> db)
  | Some user =>
      if subscription_active now1 (subscribed_until user) then (true, db)
      else if negb (bool_decide (last_request_date user = Some today)) then
        (true, alter (set_last_request today 1) user_id db)
      else if bool_decide (requests_today user < MAX_FREE_REQUESTS_PER_DAY) then
        (true, alter (set_requests_today (fun n => n + 1)) user_id db)
      else (false, db)
  end.

(** [get_remaining_requests]: a SELECT only; the table is returned as it was. *)
Definition get_remaining_requests (now : datetime) (user_id : Z) (db : users_table)
  : Z * users_table :=
  let today := strftime_Ymd now in
  match db !! user_id with
  | None => (MAX_FREE_REQUESTS_PER_DAY, db)
  | Some user =>
      if negb (bool_decide (last_request_date user = Some today)) then
        (MAX_FREE_REQUESTS_PER_DAY, db)
      else (Z.max 0 (MAX_FREE_REQUESTS_PER_DAY - requests_today user), db)
  end.

(** [update_subscription]: [UPDATE users SET subscribed_until = ? WHERE
    user_id = ?] with [now + timedelta(days=30*months)], for a date that
    datetime can hold; [update_subscription_call] below is the call with the
    [OverflowError] of that sum. *)
Definition update_subscription (now : datetime) (user_id : Z) (months : Z)
  (db : users_table) : users_table :=
  let until := now + timedelta_days (30 * months) in
  alter (set_subscribed_until until) user_id db.

(** ** The payment provider and the [check_payment] handler *)

(** Exceptions that reach this code: those of the HTTP client, of
    attribute and index lookups on the decoded answer, of the datetime
    arithmetic and of the database; [OtherException] is any other one, by
    its name. *)
Inductive exn :=
  | ClientConnectionError   (* aiohttp: the request could not be sent or answered *)
  | ContentTypeError        (* [resp.json()]: the body is not JSON *)
  | AttributeError          (* [.get] on a value that is not a dict *)
  | IndexError              (* [split('_')[2]] on fewer than three parts *)
  | JSONDecodeError         (* [resp.json()]: a JSON body that does not parse *)
  | TimeoutError            (* the request ran into the client's timeout *)
  | OverflowError           (* a timedelta or a date out of datetime's range *)
  | IntegrityError          (* an INSERT of a [user_id] that has a row *)
  | OtherException (name : string).

Inductive outcome (A : Type) :=
  | Ret (a : A)
  | Raise (e : exn).
Arguments Ret {A} a.
Arguments Raise {A} e.

(** A decoded JSON value; an object is the list of its items. *)
#[warnings="-register-all"] Inductive json :=
  | JNull
  | JBool (b : bool)
  | JNum (n : Z)
  | JStr (s : string)
  | JArr (l : list json)
  | JObj (items : list (string * json)).

(** What the provider's endpoint does with one GET: the request cannot be
    sent or answered, the body is not of a JSON content type, the body
    decodes to [j], or the request or the decoding raises any other exception
    [e] (a timeout, a body of JSON content type that does not parse, ...). *)
Inductive http_reply :=
  | ConnectionFailed
  | NotJson
  | Body (j : json)
  | RequestRaises (e : exn).

Fixpoint dict_lookup (k : string) (items : list (string * json)) : option json :=
  match items with
  | [] => None
  | (k', v) :: rest => if String.eqb k k' then Some v else dict_lookup k rest
  end.

(** [v.get(k, dflt)] *)
Definition py_get (v : json) (k : string) (dflt : json) : outcome json :=
  match v with
  | JObj items => Ret (default dflt (dict_lookup k items))
  | _ => Raise AttributeError
  end.

(** [v == s] for a string literal [s] *)
Definition py_eq_str (v : json) (s : string) : bool :=
  match v with
  | JStr s' => String.eqb s' s
  | _ => false
  end.

(** [check_invoice_status]: [provider] is the endpoint, as a function of the
    [uuid] of the query.  There is no [try] around the request. *)
Definition check_invoice_status (provider : string -> http_reply)
  (invoice_id : string) : outcome json :=
  match provider invoice_id with
  | ConnectionFailed => Raise ClientConnectionError
  | NotJson => Raise ContentTypeError
  | Body data =>
      match py_get data "result" (JObj []) with
      | Raise e => Raise e
      | Ret result => py_get result "status" (JStr "error")
      end
  | RequestRaises e => Raise e
  end.

(** [s.split(sep)] for a one-character separator *)
Fixpoint split (sep : Ascii.ascii) (s : string) : list string :=
  match s with
  | EmptyString => [EmptyString]
  | String c rest =>
      if Ascii.eqb c sep then EmptyString :: split sep rest
      else match split sep rest with
           | [] => [String c EmptyString]
           | part :: parts => String c part :: parts
           end
  end.

(** What a handler does to the outside, in order; [UpdateSubscription]
    marks each call of [update_subscription]. *)
Inductive event :=
  | CallbackAnswer (text : option string)
  | MessageAnswer (chat : Z) (text : string)
  | UpdateSubscription (user_id months : Z).

Record world := World {
  users : users_table;
  trace : list event
}.

Definition handler (A : Type) : Type := world -> outcome A * world.

Definition ret {A} (a : A) : handler A := fun w => (Ret a, w).

Definition bind {A B} (m : handler A) (k : A -> handler B) : handler B :=
  fun w =>
    match m w with
    | (Ret a, w') => k a w'
    | (Raise e, w') => (Raise e, w')
    end.

Definition lift {A} (o : outcome A) : handler A := fun w => (o, w).

Definition emit (e : event) : handler unit :=
  fun w => (Ret tt, {| users := users w; trace := trace w ++ [e] |}).

Definition on_users (f : users_table -> users_table) : handler unit :=
  fun w => (Ret tt, {| users := f (users w); trace := trace w |}).

Declare Scope handler_scope.
Delimit Scope handler_scope with handler.
Notation "x <- m ;; k" := (bind m (fun x => k))
  (at level 100, m at next level, right associativity) : handler_scope.
Notation "m ;; k" := (bind m (fun _ => k))
  (at level 100, right associativity) : handler_scope.

(** [l[i]] *)
Definition subscript {A} (l : list A) (i : nat) : outcome A :=
  match l !! i with
  | Some x => Ret x
  | None => Raise IndexError
  end.

Definition msg_request_error : string := "⚠ Ошибка при обработке запроса".
Definition msg_user_not_found : string := "⚠ Ошибка: пользователь не найден".
Definition msg_activated : string :=
  "✅ Подписка активирована! Теперь у вас полный доступ.".
Definition msg_payment_not_found : string :=
  "⚠ Оплата не найдена. Если вы оплатили, попробуйте позже.".

(** The fields of a callback query that the handler reads; [message] is the
    chat of the message the button belongs to. *)
Record callback_query := CallbackQuery {
  data : option string;
  message : option Z;
  from_user : option Z
}.

(** [await update_subscription(user_id, months)] at clock [now] *)
Definition call_update_subscription (now : datetime) (user_id months : Z)
  : handler unit :=
  (emit (UpdateSubscription user_id months) ;;
   on_users (update_subscription now user_id months))%handler.

(** [check_payment]: [now] is the clock as [update_subscription] reads it.
    Here every call of the Telegram API goes through and the date is in
    range; [Bot.check_payment] below has the calls that raise. *)
Definition check_payment (provider : string -> http_reply) (now : datetime)
  (callback : callback_query) : handler unit :=
  match data callback, message callback with
  | Some d, Some _ =>
      (emit (CallbackAnswer None) ;;
       invoice_id <- lift (subscript (split "_"%char d) 2) ;;
       status <- lift (check_invoice_status provider invoice_id) ;;
       match message callback with
       | None => ret tt
       | Some chat =>
           if py_eq_str status "paid" then
             match from_user callback with
             | None => emit (MessageAnswer chat msg_user_not_found)
             | Some user_id =>
                 call_update_subscription now user_id 1 ;;
                 emit (MessageAnswer chat msg_activated)
             end
           else emit (MessageAnswer chat msg_payment_not_found)
       end)%handler
  | _, _ => emit (CallbackAnswer (Some msg_request_error))
  end.

(** ** Sequences of store operations

    [step] and [run] take whole calls, one after the other; the statements
    of calls that overlap are in [interleave] below. *)

Inductive op :=
  | Op_check_access (now0 now1 : datetime) (user_id : Z)
  | Op_update_subscription (now : datetime) (user_id months : Z)
  | Op_reset_daily_limits.

Definition step (db : users_table) (o : op) : users_table :=
  match o with
  | Op_check_access now0 now1 user_id => (check_access now0 now1 user_id db).2
  | Op_update_subscription now user_id months =>
      update_subscription now user_id months db
  | Op_reset_daily_limits => reset_daily_limits db
  end.

Definition run (ops : list op) (db : users_table) : users_table :=
  fold_left step ops db.

(** No row counts more requests than the daily limit. *)
Definition quota_bounded (db : users_table) : Prop :=
  map_Forall (fun _ r => requests_today r <= MAX_FREE_REQUESTS_PER_DAY) db.

#[global] Instance quota_bounded_dec db : Decision (quota_bounded db).
Proof. unfold quota_bounded. apply _. Defined.

(** Number of calls of [update_subscription] for [user_id] in a trace. *)
Fixpoint extend_calls (user_id : Z) (tr : list event) : nat :=
  match tr with
  | [] => 0%nat
  | UpdateSubscription u _ :: rest =>
      if bool_decide (u = user_id) then S (extend_calls user_id rest)
      else extend_calls user_id rest
  | _ :: rest => extend_calls user_id rest
  end.

(** The column [subscribed_until] of a user, [None] also when there is no row. *)
Definition subscription_of (user_id : Z) (db : users_table) : option datetime :=
  db !! user_id ≫= subscribed_until.

(** ** The admission policy as the specification words it *)
Module Spec.

(** GetOrCreate: the existing record, or a new persisted one with
    lastRequestDate = today, requestsToday = 0, no subscription, no pending
    invoice. *)
Definition GetOrCreate (today : date) (userId : Z) (store : users_table)
  : user_row * users_table :=
  match store !! userId with
  | Some r => (r, store)
  | None =>
      let r := {| subscribed_until := None;
                  last_request_date := Some today;
                  requests_today := 0;
                  invoice_id := None |} in
      (r, <[userId := r]> store)
  end.

(** Step 2: subscribedUntil is present and later than now. *)
Definition subscribed (now : datetime) (r : user_row) : Prop :=
  exists t, subscribed_until r = Some t /\ now < t.

#[global] Instance subscribed_dec now r : Decision (subscribed now r).
Proof.
  unfold subscribed. destruct (subscribed_until r) as [t|].
  - destruct (decide (now < t)) as [Hlt|Hge].
    + left. by exists t.
    + right. intros (t' & Ht' & Hlt). by simplify_eq.
  - right. by intros (t' & Ht' & _).
Defined.

(** The five steps of the admission precedence: load or create; the
    subscription check; the date rollover (lastRequestDate = today,
    requestsToday = 1); the quota check (requestsToday incremented); denial.
    The records written are spelled out field by field. *)
Definition admission (today : date) (now : datetime) (userId : Z)
  (store : users_table) : bool * users_table :=
  let '(r, store1) := GetOrCreate today userId store in
  if decide (subscribed now r) then (true, store1)
  else if decide (last_request_date r <> Some today) then
    (true, <[userId := {| subscribed_until := subscribed_until r;
                          last_request_date := Some today;
                          requests_today := 1;
                          invoice_id := invoice_id r |}]> store1)
  else if decide (requests_today r < MAX_FREE_REQUESTS_PER_DAY) then
    (true, <[userId := {| subscribed_until := subscribed_until r;
                          last_request_date := last_request_date r;
                          requests_today := requests_today r + 1;
                          invoice_id := invoice_id r |}]> store1)
  else (false, store1).

End Spec.

(** ** Scenarios used below *)
Module Scenario.


(** The provider cannot be reached. *)
Definition provider_down : string -> http_reply := fun _ => ConnectionFailed.

(** User 7 presses the button of invoice INV-1 in chat 7. *)
Definition button : callback_query :=
  {| data := Some "check_payment_INV-1"; message := Some 7; from_user := Some 7 |}.

(** User 7 has made one request on day 0 and has no subscription. *)
Definition one_request : world :=
  {| users := {[ 7 := new_user_row 0 ]}; trace := [] |}.

End Scenario.

(** ** Midnight *)

(** [t.replace(hour=0, minute=0, second=0, microsecond=0)] *)
Definition replace_midnight (t : datetime) : datetime :=
  strftime_Ymd t * us_per_day.

(** [(now + timedelta(days=1)).replace(hour=0, ...)], as in
    [get_time_until_midnight] and [scheduled_reset]. *)
Definition next_midnight (now : datetime) : datetime :=
  replace_midnight (now + timedelta_days 1).

(** [delta.seconds] of a [timedelta] of [delta] microseconds: the seconds
    within the day, the whole days being in [delta.days]. *)
Definition timedelta_seconds (delta : Z) : Z :=
  (delta `div` 1000000) `mod` 86400.

(** The [hours] and [minutes] that [get_time_until_midnight] prints. *)
Definition hours_minutes_until_midnight (now : datetime) : Z * Z :=
  let midnight := next_midnight now in
  let delta := midnight - now in
  let hours := timedelta_seconds delta `div` 3600 in
  let minutes := (timedelta_seconds delta `mod` 3600) `div` 60 in
  (hours, minutes).

(** [scheduled_reset] sleeps [(next_midnight - now).total_seconds()]; the
    length of that sleep in microseconds. *)
Definition sleep_until_midnight (now : datetime) : Z :=
  next_midnight now - now.

(** ** Requests in a row *)

(** [check_access] for one user at each of the given pairs of clock reads,
    one call after the other, each finished before the next begins: the
    answers and the table at the end.  Calls that overlap are in
    [interleave]. *)
Fixpoint serve (reads : list (datetime * datetime)) (user_id : Z)
  (db : users_table) : list bool * users_table :=
  match reads with
  | [] => ([], db)
  | (now0, now1) :: rest =>
      let '(ok, db1) := check_access now0 now1 user_id db in
      let '(oks, db2) := serve rest user_id db1 in
      (ok :: oks, db2)
  end.

(** ** Shape of the rows the program writes *)

(** A row as the program leaves it: a day in [last_request_date], a count
    that is not negative, nothing in [invoice_id]. *)
Definition well_formed_row (r : user_row) : Prop :=
  is_Some (last_request_date r) /\ 0 <= requests_today r /\ invoice_id r = None.

(** The users for whom a sequence of operations calls [check_access]. *)
Fixpoint requesters (ops : list op) : gset Z :=
  match ops with
  | [] => ∅
  | Op_check_access _ _ user_id :: rest => {[ user_id ]} ∪ requesters rest
  | _ :: rest => requesters rest
  end.

(** ** Callback data of the payment button *)

(** [c in s] for a character [c] *)
Fixpoint has_char (c : Ascii.ascii) (s : string) : bool :=
  match s with
  | EmptyString => false
  | String c' rest => if Ascii.eqb c' c then true else has_char c rest
  end.

(** [s.startswith(prefix)] *)
Fixpoint startswith (prefix s : string) : bool :=
  match prefix, s with
  | EmptyString, _ => true
  | String c p, String c' s' => if Ascii.eqb c c' then startswith p s' else false
  | String _ _, EmptyString => false
  end.

(** [f"check_payment_{uuid}"], the callback data that [buy_subscription]
    puts on the button, for a [uuid] that is a string. *)
Definition check_payment_data (uuid : string) : string :=
  "check_payment_" +:+ uuid.

(** ** The two POST endpoints *)

(** What an endpoint does with one POST: the request raises ([reason] is
    [str(e)]), or it returns a status and a body, which [resp.json()] decodes
    or refuses ([NotJsonBody], with the [str(e)] of that exception). *)
Inductive post_body :=
  | NotJsonBody (reason : string)
  | JsonBody (j : json).

Inductive post_reply :=
  | PostFailed (reason : string)
  | Response (status : Z) (body : post_body).

Definition msg_overloaded : string :=
  "⚠ Система перегружена. Пожалуйста, попробуйте позже.".
Definition msg_mistral_error : string :=
  "⚠ Произошла ошибка при обработке запроса. Пожалуйста, попробуйте позже.".

(** [v[k]] for a string key [k], [None] when it raises: only a dict that
    has the key gives a value. *)
Definition py_item (v : json) (k : string) : option json :=
  match v with
  | JObj items => dict_lookup k items
  | _ => None
  end.

(** [data["choices"][0]["message"]["content"]], [None] when one of the
    subscripts raises; [[0]] gives a value on a list that is not empty, and
    on a string that is not empty a string, which has no ["message"]. *)
Definition completion_content (data : json) : option json :=
  choices ← py_item data "choices";
  choice ← match choices with
            | JArr (first :: _) => Some first
            | _ => None
            end;
  msg ← py_item choice "message";
  py_item msg "content".

(** [get_mistral_response] after the request: the [try] block gives a value
    or raises ([None]), and the [except] turns every exception into the
    apology. *)
Definition mistral_result (reply : post_reply) : json :=
  let attempt : option json :=
    match reply with
    | PostFailed _ => None
    | Response status body =>
        if bool_decide (status = 200) then
          match body with
          | JsonBody data => completion_content data
          | NotJsonBody _ => None
          end
        else if bool_decide (status = 429) then Some (JStr msg_overloaded)
        else None
    end in
  default (JStr msg_mistral_error) attempt.

(** Python's [str] of a decoded value; [repr] is Python's [repr], which
    [str] uses for lists and dicts. *)
Definition py_str (repr : json -> string) (v : json) : string :=
  match v with
  | JStr s => s
  | JNull => "None"
  | JBool true => "True"
  | JBool false => "False"
  | JNum n => pretty n
  | JArr _ | JObj _ => repr v
  end.

(** The name of a value's type, as in the text of an [AttributeError]. *)
Definition type_name (v : json) : string :=
  match v with
  | JNull => "NoneType"
  | JBool _ => "bool"
  | JNum _ => "int"
  | JStr _ => "str"
  | JArr _ => "list"
  | JObj _ => "dict"
  end.

(** [str(e)] of the [AttributeError] of [v.get] on a [v] that is no dict *)
Definition no_get_text (v : json) : string :=
  "'" +:+ type_name v +:+ "' object has no attribute 'get'".

(** The JSON body of the request of [create_cryptocloud_invoice]. *)
Record invoice_request := InvoiceRequest {
  shop_id : string;
  amount : string;
  currency : string;
  order_id : string;
  available_currencies : list string
}.

Definition SUBSCRIPTION_PRICE_3 : Z := 3.

(** [f"sub_{user_id}_{int(datetime.now().timestamp())}"], with [ts] the
    whole seconds of the timestamp. *)
Definition make_order_id (user_id ts : Z) : string :=
  "sub_" +:+ pretty user_id +:+ "_" +:+ pretty ts.

Definition make_invoice_request (shop : string) (user_id amount_usd ts : Z)
  : invoice_request :=
  {| shop_id := shop;
     amount := pretty amount_usd;
     currency := "USD";
     order_id := make_order_id user_id ts;
     available_currencies := ["USDT_TRC20"; "USDT_ERC20"; "BTC"] |}.

(** A dict, as the list of its items. *)
Abbreviation dict := (list (string * json)).

(** [d.get(k, dflt)] on a dict *)
Definition dict_get (d : dict) (k : string) (dflt : json) : json :=
  default dflt (dict_lookup k d).

Definition error_dict (text : string) : dict := [("error", JStr text)].

(** [create_cryptocloud_invoice] after the request: the [try] block with
    its two error returns, and the [except] around it.  An [inl] is the text
    of an exception raised inside the [try]; [response_data.get] raises on a
    [response_data] that is no dict, whichever of the two it is. *)
Definition invoice_result (repr : json -> string) (reply : post_reply) : dict :=
  let attempt : string + dict :=
    match reply with
    | PostFailed reason => inl reason
    | Response status body =>
        match body with
        | NotJsonBody reason => inl reason
        | JsonBody (JObj response_data) =>
            if negb (bool_decide (status = 200)) then
              let error_msg :=
                dict_get response_data "message" (JStr "Unknown error") in
              inr (error_dict ("Payment creation failed: "
                               +:+ py_str repr error_msg))
            else if negb (py_eq_str (dict_get response_data "status" JNull)
                                    "success") then
              inr (error_dict "Payment creation failed")
            else inr response_data
        | JsonBody response_data => inl (no_get_text response_data)
        end
    end in
  match attempt with
  | inl reason => error_dict ("Connection error: " +:+ reason)
  | inr invoice => invoice
  end.

(** [bool(v)] *)
Definition py_truthy (v : json) : bool :=
  match v with
  | JNull => false
  | JBool b => b
  | JNum n => negb (bool_decide (n = 0))
  | JStr s => negb (bool_decide (s = EmptyString))
  | JArr l => negb (bool_decide (l = []))
  | JObj items => negb (bool_decide (items = []))
  end.

(** ** The range of datetime *)

(** datetime holds the years 1 to 9999: 3652059 days. *)
Definition datetime_days : Z := 3652059.

Definition in_datetime_range (t : datetime) : Prop :=
  0 <= t < datetime_days * us_per_day.

(** [timedelta(days=d)] takes at most 999999999 days either way. *)
Definition in_timedelta_range (d : Z) : Prop :=
  - 999999999 <= d <= 999999999.

(** [datetime.now() + timedelta(days=30*months)]: an [OverflowError] when
    the timedelta or the sum is out of range. *)
Definition subscription_until (now : datetime) (months : Z) : outcome datetime :=
  if decide (in_timedelta_range (30 * months) /\
             in_datetime_range (now + timedelta_days (30 * months)))
  then Ret (now + timedelta_days (30 * months))
  else Raise OverflowError.

(** [update_subscription], the whole call: the date, which may raise before
    anything is written, then the UPDATE. *)
Definition update_subscription_call (now : datetime) (user_id months : Z)
  (db : users_table) : outcome unit * users_table :=
  match subscription_until now months with
  | Raise e => (Raise e, db)
  | Ret until => (Ret tt, alter (set_subscribed_until until) user_id db)
  end.

(** ** Calls that overlap

    Handlers run as tasks of one event loop, and every [await] lets another
    task run.  [check_access] reads the row with a SELECT, and writes, after
    further awaits and with no transaction around the two, on the strength
    of what it read. *)

(** The SELECT of [check_access] and [fetchone]. *)
Definition check_access_select (user_id : Z) (db : users_table)
  : option user_row :=
  db !! user_id.

(** The rest of [check_access], from [if not user], for the row [user] that
    the SELECT gave and the table as it is now.  The INSERT fails on a
    [user_id] that has a row by now; [requests_today + 1] is computed by the
    UPDATE, on the row as it is now. *)
Definition check_access_write (today : date) (now1 : datetime) (user_id : Z)
  (user : option user_row) (db : users_table) : outcome bool * users_table :=
  match user with
  | None =>
      match db !! user_id with
      | None => (Ret true, <[user_id := new_user_row today]> db)
      | Some _ => (Raise IntegrityError, db)
      end
  | Some row =>
      if subscription_active now1 (subscribed_until row) then (Ret true, db)
      else if negb (bool_decide (last_request_date row = Some today)) then
        (Ret true, alter (set_last_request today 1) user_id db)
      else if bool_decide (requests_today row < MAX_FREE_REQUESTS_PER_DAY) then
        (Ret true, alter (set_requests_today (fun n => n + 1)) user_id db)
      else (Ret false, db)
  end.

(** One step of some task on the database: the SELECT of a call of
    [check_access] (the call is known by a number), the rest of that call, a
    call of [update_subscription], a call of [reset_daily_limits]. *)
Inductive statement :=
  | Select (call : nat) (now0 : datetime) (user_id : Z)
  | Write (call : nat) (now1 : datetime)
  | Extend (now : datetime) (user_id months : Z)
  | ResetAll.

(** The table, what each call of [check_access] under way has read (the
    user, today, the row), and the answers given so far. *)
Record tasks := Tasks {
  shared : users_table;
  pending : gmap nat (Z * date * option user_row);
  answers : list (nat * outcome bool)
}.

Definition execute (s : tasks) (st : statement) : tasks :=
  match st with
  | Select call now0 user_id =>
      {| shared := shared s;
         pending := <[call := (user_id, strftime_Ymd now0,
                               check_access_select user_id (shared s))]>
                      (pending s);
         answers := answers s |}
  | Write call now1 =>
      match pending s !! call with
      | None => s
      | Some (user_id, today, user) =>
          let '(answer, db) :=
            check_access_write today now1 user_id user (shared s) in
          {| shared := db;
             pending := delete call (pending s);
             answers := answers s ++ [(call, answer)] |}
      end
  | Extend now user_id months =>
      {| shared := (update_subscription_call now user_id months (shared s)).2;
         pending := pending s;
         answers := answers s |}
  | ResetAll =>
      {| shared := reset_daily_limits (shared s);
         pending := pending s;
         answers := answers s |}
  end.

Definition interleave (sts : list statement) (s : tasks) : tasks :=
  fold_left execute sts s.

(** ** The message handlers *)

(** [get_time_until_midnight] *)
Definition get_time_until_midnight (now : datetime) : string :=
  let '(hours, minutes) := hours_minutes_until_midnight now in
  pretty hours +:+ " ч. " +:+ pretty minutes +:+ " мин.".

Module Bot.

Inductive button :=
  | UrlButton (text : string) (url : string)
  | CallbackButton (text : string) (callback_data : string).

(** What a handler sends out: calls of the Telegram API and the two POST
    requests. *)
Inductive output :=
  | SendMessage (chat : Z) (text : string) (reply_markup : list button)
  | SendChatAction (chat : Z) (action : string)
  | AnswerCallbackQuery (text : option string)
  | MistralCompletion (prompt : string)
  | CreateInvoice (request : invoice_request)
  | InvoiceInfo (uuid : string).

Inductive exception :=
  | TelegramError      (* a call of the Telegram API raises *)
  | ValidationError    (* a value that is no [str] where aiogram wants one *)
  | KeyError (key : string)
  | TypeError
  | Raised (e : exn).  (* one of the exceptions above *)

Record state := State {
  table : users_table;
  outbox : list output
}.

Inductive result (A : Type) :=
  | Ok (a : A)
  | Err (e : exception).
Arguments Ok {A} a.
Arguments Err {A} e.

Definition action (A : Type) : Type := state -> result A * state.

Definition ret {A} (a : A) : action A := fun st => (Ok a, st).

Definition bind {A B} (m : action A) (k : A -> action B) : action B :=
  fun st =>
    match m st with
    | (Ok a, st') => k a st'
    | (Err e, st') => (Err e, st')
    end.

Definition raise {A} (e : exception) : action A := fun st => (Err e, st).

(** [try: m except Exception: h] *)
Definition try_except {A} (m : action A) (h : exception -> action A) : action A :=
  fun st =>
    match m st with
    | (Ok a, st') => (Ok a, st')
    | (Err e, st') => h e st'
    end.

(** A call of the Telegram API: [telegram] tells whether it goes through;
    when it does not, the call raises and nothing is sent. *)
Definition send (telegram : output -> bool) (o : output) : action unit :=
  fun st =>
    if telegram o
    then (Ok tt, {| table := table st; outbox := outbox st ++ [o] |})
    else (Err TelegramError, st).

(** A value handed to aiogram as the text of a message or the url of a
    button: its models take a [str] and refuse anything else. *)
Definition as_str (v : json) : action string :=
  match v with
  | JStr s => ret s
  | _ => raise ValidationError
  end.

(** An HTTP request, on record in the outbox. *)
Definition request (o : output) : action unit :=
  fun st => (Ok tt, {| table := table st; outbox := outbox st ++ [o] |}).

(** A function of the store, run on the table. *)
Definition on_table {A} (f : users_table -> A * users_table) : action A :=
  fun st =>
    let '(a, db) := f (table st) in
    (Ok a, {| table := db; outbox := outbox st |}).

Declare Scope bot_scope.
Delimit Scope bot_scope with bot.
Notation "x <- m ;; k" := (bind m (fun x => k))
  (at level 100, m at next level, right associativity) : bot_scope.
Notation "m ;; k" := (bind m (fun _ => k))
  (at level 100, right associativity) : bot_scope.

(** [get_mistral_response]: [api] is the completion endpoint as a function
    of the prompt. *)
Definition get_mistral_response (api : string -> post_reply) (prompt : string)
  : action json :=
  (request (MistralCompletion prompt) ;;
   ret (mistral_result (api prompt)))%bot.

(** [create_cryptocloud_invoice]: [api] is the invoice endpoint as a
    function of the request, [ts] is [int(datetime.now().timestamp())]. *)
Definition create_cryptocloud_invoice (repr : json -> string) (shop : string)
  (api : invoice_request -> post_reply) (ts : Z) (user_id amount_usd : Z)
  : action dict :=
  let data := make_invoice_request shop user_id amount_usd ts in
  (request (CreateInvoice data) ;;
   ret (invoice_result repr (api data)))%bot.

(** The fields of an incoming message that the handlers read. *)
Record incoming := Incoming {
  chat : Z;
  sender : option Z;        (* [message.from_user] *)
  text : option string
}.

Definition nl : string := String (Ascii.ascii_of_nat 10) EmptyString.

Definition msg_no_user : string := "⚠ Не удалось идентифицировать пользователя".
Definition msg_empty : string := "⚠ Получено пустое сообщение".
Definition msg_handler_error : string := "⚠ Произошла ошибка при обработке запроса".

Definition msg_limit (time_until_midnight : string) : string :=
  "🚫 Лимит бесплатных запросов исчерпан (10 в день)." +:+ nl +:+
  "Оформите подписку для неограниченного доступа." +:+ nl +:+
  "Новые запросы будут доступны через " +:+ time_until_midnight +:+ ".".

Definition msg_remaining (remaining : Z) : string :=
  "ℹ У вас осталось " +:+ pretty remaining +:+ " бесплатных запросов сегодня.".

(** [handle_message]: [now0] and [now1] are the clock reads of
    [check_access], [now2] the read of [get_remaining_requests], [now3] the
    read of [get_time_until_midnight]. *)
Definition handle_message (telegram : output -> bool)
  (api : string -> post_reply) (now0 now1 now2 now3 : datetime) (m : incoming)
  : action unit :=
  match sender m with
  | None => send telegram (SendMessage (chat m) msg_no_user [])
  | Some user_id =>
      match text m with
      | None => send telegram (SendMessage (chat m) msg_empty [])
      | Some prompt =>
          (ok <- on_table (check_access now0 now1 user_id) ;;
           if negb ok then
             remaining <- on_table (get_remaining_requests now2 user_id) ;;
             let time_until_midnight := get_time_until_midnight now3 in
             send telegram
               (SendMessage (chat m) (msg_limit time_until_midnight) [])
           else
             try_except
               (send telegram (SendChatAction (chat m) "typing") ;;
                response <- get_mistral_response api prompt ;;
                answer <- as_str response ;;
                send telegram (SendMessage (chat m) answer []) ;;
                remaining <- on_table (get_remaining_requests now2 user_id) ;;
                if bool_decide (remaining <= 3) then
                  send telegram
                    (SendMessage (chat m) (msg_remaining remaining) [])
                else ret tt)
               (fun _ =>
                  send telegram
                    (SendMessage (chat m) msg_handler_error [])))%bot
      end
  end.

Definition msg_greeting (remaining : Z) : string :=
  "🤖 Привет! Я бот с Mistral AI." +:+ nl +:+ nl +:+
  "🎁 У вас осталось " +:+ pretty remaining +:+
  " бесплатных запросов сегодня" +:+ nl +:+
  "🔓 Для неограниченного доступа оформите подписку.".

Definition buy_button : button :=
  CallbackButton "💳 Купить подписку (3 USD)" "buy_subscription".

(** [cmd_start]: [now] is the clock read of [get_remaining_requests]. *)
Definition cmd_start (telegram : output -> bool) (now : datetime) (m : incoming)
  : action unit :=
  match sender m with
  | None => ret tt
  | Some user_id =>
      (remaining <- on_table (get_remaining_requests now user_id) ;;
       send telegram
         (SendMessage (chat m) (msg_greeting remaining) [buy_button]))%bot
  end.

Definition msg_creating : string := "🔄 Создаём платёжную ссылку...".
Definition msg_create_failed : string :=
  "⚠ Не получилось создать платёж. Попробуйте позже.".
Definition msg_create_error (reason : string) : string :=
  "⚠ Ошибка при создании платежа: " +:+ reason.
Definition msg_pay : string :=
  "💸 Для оплаты подписки нажмите кнопку ниже:" +:+ nl +:+
  "Сумма: " +:+ pretty SUBSCRIPTION_PRICE_3 +:+ " USD" +:+ nl +:+
  "Счёт действителен в течение 24 часов".

(** [v[k]] for a string key, with the exception it raises otherwise. *)
Definition subscript_key (v : json) (k : string) : action json :=
  match v with
  | JObj items =>
      match dict_lookup k items with
      | Some x => ret x
      | None => raise (KeyError k)
      end
  | _ => raise TypeError
  end.

(** [buy_subscription]: [ts] is the timestamp that goes into the order id. *)
Definition buy_subscription (telegram : output -> bool)
  (repr : json -> string) (shop : string)
  (api : invoice_request -> post_reply) (ts : Z) (callback : callback_query)
  : action unit :=
  match from_user callback, message callback with
  | Some user_id, Some chat =>
      (send telegram (AnswerCallbackQuery None) ;;
       send telegram (SendMessage chat msg_creating []) ;;
       invoice <- create_cryptocloud_invoice repr shop api ts user_id
                    SUBSCRIPTION_PRICE_3 ;;
       match dict_lookup "error" invoice with
       | Some reason =>
           send telegram
             (SendMessage chat (msg_create_error (py_str repr reason)) [])
       | None =>
           if negb (py_truthy (dict_get invoice "result" JNull)) then
             send telegram (SendMessage chat msg_create_failed [])
           else
             result <- subscript_key (JObj invoice) "result" ;;
             link <- subscript_key result "link" ;;
             url <- as_str link ;;
             result' <- subscript_key (JObj invoice) "result" ;;
             uuid <- subscript_key result' "uuid" ;;
             send telegram
               (SendMessage chat msg_pay
                  [UrlButton "💳 Перейти к оплате" url;
                   CallbackButton "🔄 Проверить оплату"
                     ("check_payment_" +:+ py_str repr uuid)])
       end)%bot
  | _, _ => send telegram (AnswerCallbackQuery (Some msg_request_error))
  end.

(** A computation that gives a value or raises one of [exn]. *)
Definition of_outcome {A} (o : outcome A) : action A :=
  match o with
  | Ret a => ret a
  | Raise e => raise (Raised e)
  end.

(** A function of the store that may raise, run on the table. *)
Definition on_table_raising {A} (f : users_table -> outcome A * users_table)
  : action A :=
  fun st =>
    let '(o, db) := f (table st) in
    (match o with Ret a => Ok a | Raise e => Err (Raised e) end,
     {| table := db; outbox := outbox st |}).

(** [check_payment], with calls of the Telegram API that may raise, the
    request to the provider on record, and [update_subscription] as the
    whole call. *)
Definition check_payment (telegram : output -> bool)
  (provider : string -> http_reply) (now : datetime)
  (callback : callback_query) : action unit :=
  match data callback, message callback with
  | Some d, Some _ =>
      (send telegram (AnswerCallbackQuery None) ;;
       invoice_id <- of_outcome (subscript (split "_"%char d) 2) ;;
       request (InvoiceInfo invoice_id) ;;
       status <- of_outcome (check_invoice_status provider invoice_id) ;;
       match message callback with
       | None => ret tt
       | Some chat =>
           if py_eq_str status "paid" then
             match from_user callback with
             | None => send telegram (SendMessage chat msg_user_not_found [])
             | Some user_id =>
                 on_table_raising (update_subscription_call now user_id 1) ;;
                 send telegram (SendMessage chat msg_activated [])
             end
           else send telegram (SendMessage chat msg_payment_not_found [])
       end)%bot
  | _, _ => send telegram (AnswerCallbackQuery (Some msg_request_error))
  end.

End Bot.

(** The prompts sent to the completion endpoint, in order. *)
Fixpoint asked (outs : list Bot.output) : list string :=
  match outs with
  | [] => []
  | Bot.MistralCompletion prompt :: rest => prompt :: asked rest
  | _ :: rest => asked rest
  end.

(** * Properties *)

Section store_lemmas.
Implicit Types (db : users_table) (r : user_row).

Lemma alter_as_insert db uid r (f : user_row -> user_row) :
  db !! uid = Some r -> alter f uid db = <[uid := f r]> db.
Proof.
  intros Hr. apply map_eq. intros k.
  destruct (decide (uid = k)) as [->|Hne].
  - by rewrite lookup_alter_eq, lookup_insert_eq, Hr.
  - by rewrite lookup_alter_ne, lookup_insert_ne.
Qed.

Lemma alter_absent db uid (f : user_row -> user_row) :
  db !! uid = None -> alter f uid db = db.
Proof.
  intros Hr. apply map_eq. intros k.
  destruct (decide (uid = k)) as [->|Hne].
  - by rewrite lookup_alter_eq, Hr.
  - by rewrite lookup_alter_ne.
Qed.

Lemma subscription_active_subscribed now r :
  subscription_active now (subscribed_until r) = true <-> Spec.subscribed now r.
Proof.
  unfold subscription_active, Spec.subscribed.
  destruct (subscribed_until r) as [t|]; split.
  - intros H%bool_decide_eq_true. by exists t.
  - intros (t' & Ht' & Hlt). simplify_eq. by apply bool_decide_eq_true.
  - done.
  - by intros (t' & Ht' & _).
Qed.

End store_lemmas.

(** X29: a call of [check_access] that runs from its SELECT to its write
    with no other statement on the table in between returns the answer and
    leaves the table that the five-step admission precedence of the
    specification gives (load or create; subscription; date rollover, which
    writes today and 1; quota, which writes the count plus 1; denial), with
    today the day of the first clock read and now the clock of the
    subscription test. *)
Theorem check_access_refines_admission now0 now1 user_id db :
  check_access now0 now1 user_id db
  = Spec.admission (strftime_Ymd now0) now1 user_id db.
Proof.
  unfold check_access, Spec.admission, Spec.GetOrCreate.
  destruct (db !! user_id) as [r|] eqn:Hr.
  - destruct (decide (Spec.subscribed now1 r)) as [Hs|Hs].
    + apply subscription_active_subscribed in Hs. by rewrite Hs.
    + destruct (subscription_active now1 (subscribed_until r)) eqn:Ha.
      { by apply subscription_active_subscribed in Ha. }
      repeat case_bool_decide; repeat case_decide; simpl; try done.
      all: by erewrite alter_as_insert.
  - repeat case_decide; simpl in *; try done.
    + by match goal with
         | Hs : Spec.subscribed _ _ |- _ => destruct Hs as (t & ? & _)
         end.
    + by rewrite insert_insert_eq.
Qed.

(** ** Subscribers *)

(** C6: a user whose row has [subscribed_until] present and strictly later
    than the clock of the subscription test is let in whatever
    [requests_today] is, and the whole table, hence the whole row, is left as
    it was. *)
Theorem check_access_subscriber now0 now1 user_id db r t :
  db !! user_id = Some r ->
  subscribed_until r = Some t ->
  now1 < t ->
  check_access now0 now1 user_id db = (true, db).
Proof.
  intros Hr Ht Hlt. unfold check_access. rewrite Hr, Ht. simpl.
  by rewrite bool_decide_eq_true_2.
Qed.

Lemma check_access_subscriber_witness :
  check_access 0 5 7 {[ 7 := UserRow (Some 9) (Some 0) 10 None ]}
  = (true, {[ 7 := UserRow (Some 9) (Some 0) 10 None ]}).
Proof.
  apply (check_access_subscriber 0 5 7 _ (UserRow (Some 9) (Some 0) 10 None) 9).
  - reflexivity.
  - reflexivity.
  - lia.
Defined.

(** ** Remaining free requests *)

Lemma get_remaining_requests_no_row now user_id db :
  db !! user_id = None ->
  get_remaining_requests now user_id db = (MAX_FREE_REQUESTS_PER_DAY, db).
Proof. intros Hr. unfold get_remaining_requests. by rewrite Hr. Qed.

Lemma get_remaining_requests_other_day now user_id db r :
  db !! user_id = Some r ->
  last_request_date r <> Some (strftime_Ymd now) ->
  get_remaining_requests now user_id db = (MAX_FREE_REQUESTS_PER_DAY, db).
Proof.
  intros Hr Hd. unfold get_remaining_requests. rewrite Hr.
  by rewrite bool_decide_eq_false_2.
Qed.

Lemma get_remaining_requests_same_day now user_id db r :
  db !! user_id = Some r ->
  last_request_date r = Some (strftime_Ymd now) ->
  get_remaining_requests now user_id db
  = (Z.max 0 (MAX_FREE_REQUESTS_PER_DAY - requests_today r), db).
Proof.
  intros Hr Hd. unfold get_remaining_requests. rewrite Hr.
  by rewrite bool_decide_eq_true_2.
Qed.

(** C7: with the limit at 10, the first [check_access] of a user without a
    row answers true and [get_remaining_requests] on the same day then gives
    9; [get_remaining_requests] gives the full limit when there is no row or
    the row's [last_request_date] is not today, and
    [max(0, limit - requests_today)] otherwise, and never changes the table. *)
Theorem fresh_user_remaining_requests :
  MAX_FREE_REQUESTS_PER_DAY = 10 /\
  (forall now0 now1 now2 user_id db,
     db !! user_id = None ->
     strftime_Ymd now2 = strftime_Ymd now0 ->
     exists db',
       check_access now0 now1 user_id db = (true, db') /\
       get_remaining_requests now2 user_id db' = (9, db')) /\
  (forall now user_id db,
     db !! user_id = None ->
     get_remaining_requests now user_id db = (MAX_FREE_REQUESTS_PER_DAY, db)) /\
  (forall now user_id db r,
     db !! user_id = Some r ->
     last_request_date r <> Some (strftime_Ymd now) ->
     get_remaining_requests now user_id db = (MAX_FREE_REQUESTS_PER_DAY, db)) /\
  (forall now user_id db r,
     db !! user_id = Some r ->
     last_request_date r = Some (strftime_Ymd now) ->
     get_remaining_requests now user_id db
     = (Z.max 0 (MAX_FREE_REQUESTS_PER_DAY - requests_today r), db)).
Proof.
  split; [reflexivity|]. split; [|split; [|split]].
  - intros now0 now1 now2 user_id db Hr Hday.
    eexists. split.
    + unfold check_access. by rewrite Hr.
    + rewrite (get_remaining_requests_same_day now2 user_id _
                 (new_user_row (strftime_Ymd now0))).
      * reflexivity.
      * apply lookup_insert_eq.
      * simpl. by rewrite Hday.
  - apply get_remaining_requests_no_row.
  - apply get_remaining_requests_other_day.
  - apply get_remaining_requests_same_day.
Qed.

Lemma fresh_user_remaining_requests_witness :
  exists db',
    check_access 100 101 7 ∅ = (true, db') /\
    get_remaining_requests 102 7 db' = (9, db').
Proof.
  apply (proj1 (proj2 fresh_user_remaining_requests) 100 101 102 7 ∅).
  - reflexivity.
  - reflexivity.
Defined.

(** ** The daily limit as an invariant of the table *)

Section quota.
Implicit Types (db : users_table) (r : user_row).

Lemma quota_bounded_lookup db uid r :
  quota_bounded db -> db !! uid = Some r ->
  requests_today r <= MAX_FREE_REQUESTS_PER_DAY.
Proof. intros Hq Hr. exact (Hq uid r Hr). Qed.

Lemma quota_bounded_insert db uid r :
  quota_bounded db -> requests_today r <= MAX_FREE_REQUESTS_PER_DAY ->
  quota_bounded (<[uid := r]> db).
Proof. intros Hq Hr. by apply map_Forall_insert_2. Qed.

Lemma quota_bounded_alter db uid (f : user_row -> user_row) :
  quota_bounded db ->
  (forall r, db !! uid = Some r ->
             requests_today (f r) <= MAX_FREE_REQUESTS_PER_DAY) ->
  quota_bounded (alter f uid db).
Proof.
  intros Hq Hf k r'. destruct (decide (uid = k)) as [->|Hne].
  - rewrite lookup_alter_eq. destruct (db !! k) as [r|] eqn:Hr; [|done].
    intros [= <-]. by apply Hf.
  - rewrite lookup_alter_ne by done. apply Hq.
Qed.

Lemma check_access_quota_bounded now0 now1 uid db :
  quota_bounded db -> quota_bounded (check_access now0 now1 uid db).2.
Proof.
  intros Hq. unfold check_access.
  destruct (db !! uid) as [r|] eqn:Hr; simpl.
  - destruct (subscription_active now1 (subscribed_until r)); [done|].
    repeat case_bool_decide; simpl; try done.
    all: apply quota_bounded_alter; [done|]; intros r' Hr'; simplify_eq; simpl.
    all: unfold MAX_FREE_REQUESTS_PER_DAY in *; lia.
  - apply quota_bounded_insert; [done|]. simpl.
    unfold MAX_FREE_REQUESTS_PER_DAY. lia.
Qed.

Lemma update_subscription_quota_bounded now uid months db :
  quota_bounded db -> quota_bounded (update_subscription now uid months db).
Proof.
  intros Hq. apply quota_bounded_alter; [done|].
  intros r Hr. simpl. by eapply quota_bounded_lookup.
Qed.

Lemma reset_daily_limits_quota_bounded db :
  quota_bounded (reset_daily_limits db).
Proof.
  intros k r'. unfold reset_daily_limits. rewrite lookup_fmap.
  destruct (db !! k) as [r|]; [|done]. intros [= <-]. simpl.
  unfold MAX_FREE_REQUESTS_PER_DAY. lia.
Qed.

Lemma step_quota_bounded db o :
  quota_bounded db -> quota_bounded (step db o).
Proof.
  intros Hq. destruct o; simpl.
  - by apply check_access_quota_bounded.
  - by apply update_subscription_quota_bounded.
  - apply reset_daily_limits_quota_bounded.
Qed.

Lemma run_quota_bounded ops db :
  quota_bounded db -> quota_bounded (run ops db).
Proof.
  unfold run. revert db.
  induction ops as [|o ops IH]; intros db Hq; simpl; [done|].
  apply IH. by apply step_quota_bounded.
Qed.

End quota.

(** X30: each of [check_access], [update_subscription] and
    [reset_daily_limits], run as a whole call with no other call in between
    its statements, keeps every row's [requests_today] at most
    [MAX_FREE_REQUESTS_PER_DAY] when that holds before the call, and so it
    holds in every table that calls run one after the other build from the
    empty one. *)
Theorem requests_today_never_exceeds_limit :
  (forall now0 now1 user_id db,
     quota_bounded db -> quota_bounded (check_access now0 now1 user_id db).2) /\
  (forall now user_id months db,
     quota_bounded db ->
     quota_bounded (update_subscription now user_id months db)) /\
  (forall db, quota_bounded db -> quota_bounded (reset_daily_limits db)) /\
  (forall ops user_id r,
     run ops ∅ !! user_id = Some r ->
     requests_today r <= MAX_FREE_REQUESTS_PER_DAY).
Proof.
  split; [|split; [|split]].
  - apply check_access_quota_bounded.
  - apply update_subscription_quota_bounded.
  - intros db _. apply reset_daily_limits_quota_bounded.
  - intros ops user_id r Hr.
    eapply quota_bounded_lookup; [|exact Hr].
    apply run_quota_bounded, map_Forall_empty.
Qed.

Lemma requests_today_never_exceeds_limit_witness :
  quota_bounded (check_access 100 101 7 {[ 7 := UserRow None (Some 0) 9 None ]}).2.
Proof.
  apply (proj1 requests_today_never_exceeds_limit 100 101 7).
  apply (bool_decide_unpack _). vm_compute. exact I.
Defined.

(** ** The midnight reset *)

(** C9: [reset_daily_limits] puts [requests_today] at 0 in every row and
    keeps [last_request_date], [subscribed_until] (and [invoice_id]) of every
    row, adds no row, and running it twice gives the same table as running
    it once. *)
Theorem reset_daily_limits_zeroes_idempotent db :
  (forall user_id r,
     db !! user_id = Some r ->
     reset_daily_limits db !! user_id
     = Some {| subscribed_until := subscribed_until r;
               last_request_date := last_request_date r;
               requests_today := 0;
               invoice_id := invoice_id r |}) /\
  (forall user_id,
     db !! user_id = None -> reset_daily_limits db !! user_id = None) /\
  reset_daily_limits (reset_daily_limits db) = reset_daily_limits db.
Proof.
  unfold reset_daily_limits. split; [|split].
  - intros user_id r Hr. by rewrite lookup_fmap, Hr.
  - intros user_id Hr. by rewrite lookup_fmap, Hr.
  - apply map_eq. intros k. rewrite !lookup_fmap.
    by destruct (db !! k).
Qed.

Lemma reset_daily_limits_zeroes_idempotent_witness :
  reset_daily_limits {[ 7 := UserRow (Some 9) (Some 3) 10 None ]} !! 7
  = Some (UserRow (Some 9) (Some 3) 0 None).
Proof.
  apply (proj1 (reset_daily_limits_zeroes_idempotent _) 7
           (UserRow (Some 9) (Some 3) 10 None)).
  reflexivity.
Defined.

(** ** Extending a subscription *)

Lemma update_subscription_lookup now uid months db uid' :
  update_subscription now uid months db !! uid'
  = if decide (uid = uid')
    then set_subscribed_until (now + timedelta_days (30 * months)) <$> db !! uid'
    else db !! uid'.
Proof.
  unfold update_subscription. rewrite lookup_alter.
  by case_decide; simplify_eq.
Qed.

Lemma update_subscription_twice t1 t2 uid m1 m2 db :
  update_subscription t2 uid m2 (update_subscription t1 uid m1 db)
  = update_subscription t2 uid m2 db.
Proof.
  apply map_eq. intros k. rewrite !update_subscription_lookup.
  case_decide; [|done]. by destruct (db !! k).
Qed.

Lemma subscription_until_in_range now months :
  in_timedelta_range (30 * months) ->
  in_datetime_range (now + timedelta_days (30 * months)) ->
  subscription_until now months = Ret (now + timedelta_days (30 * months)).
Proof. intros Hd Ht. unfold subscription_until. by rewrite decide_True. Qed.

Lemma subscription_until_out_of_range now months :
  ~ (in_timedelta_range (30 * months) /\
     in_datetime_range (now + timedelta_days (30 * months))) ->
  subscription_until now months = Raise OverflowError.
Proof. intros Hn. unfold subscription_until. by rewrite decide_False. Qed.

(** The whole call is the UPDATE of [update_subscription] when the date is
    in range, and an [OverflowError] with the table as it was otherwise. *)
Lemma update_subscription_call_in_range now uid months db :
  in_timedelta_range (30 * months) ->
  in_datetime_range (now + timedelta_days (30 * months)) ->
  update_subscription_call now uid months db
  = (Ret tt, update_subscription now uid months db).
Proof.
  intros Hd Ht. unfold update_subscription_call.
  by rewrite subscription_until_in_range.
Qed.

Lemma update_subscription_call_out_of_range now uid months db :
  ~ (in_timedelta_range (30 * months) /\
     in_datetime_range (now + timedelta_days (30 * months))) ->
  update_subscription_call now uid months db = (Raise OverflowError, db).
Proof.
  intros Hn. unfold update_subscription_call.
  by rewrite subscription_until_out_of_range.
Qed.

(** C5, as the code has it: for a user that has a row and for [months]
    such that [30*months] days is a timedelta and the clock of the call plus
    these days is a date that datetime holds, [update_subscription] sets
    [subscribed_until] to that date and keeps the rest of the row; the value
    before the call plays no part, so that two calls for one month in a row
    leave the second call's clock plus 30 days, which, the second call
    coming less than 30 days after the first, is earlier than the first
    call's clock plus 60 days.  Out of that range the call raises
    [OverflowError] and the table is as it was. *)
Theorem update_subscription_call_overwrites now user_id months db r :
  db !! user_id = Some r ->
  (in_timedelta_range (30 * months) ->
   in_datetime_range (now + timedelta_days (30 * months)) ->
   update_subscription_call now user_id months db
   = (Ret tt,
      <[user_id := {| subscribed_until := Some (now + timedelta_days (30 * months));
                      last_request_date := last_request_date r;
                      requests_today := requests_today r;
                      invoice_id := invoice_id r |}]> db)) /\
  (forall now2,
     in_datetime_range (now + timedelta_days 30) ->
     in_datetime_range (now2 + timedelta_days 30) ->
     update_subscription_call now2 user_id 1
       (update_subscription_call now user_id 1 db).2
     = (Ret tt,
        <[user_id := {| subscribed_until := Some (now2 + timedelta_days 30);
                        last_request_date := last_request_date r;
                        requests_today := requests_today r;
                        invoice_id := invoice_id r |}]> db) /\
     (now2 < now + timedelta_days 30 ->
      now2 + timedelta_days 30 < now + timedelta_days 60)) /\
  (~ (in_timedelta_range (30 * months) /\
      in_datetime_range (now + timedelta_days (30 * months))) ->
   update_subscription_call now user_id months db = (Raise OverflowError, db)).
Proof.
  intros Hr. split; [|split].
  - intros Hd Ht. rewrite update_subscription_call_in_range by done.
    unfold update_subscription. by erewrite alter_as_insert.
  - intros now2 Ht1 Ht2.
    assert (in_timedelta_range (30 * 1)) as Hd
      by (unfold in_timedelta_range; lia).
    split.
    + rewrite (update_subscription_call_in_range now) by done. simpl.
      rewrite (update_subscription_call_in_range now2) by done.
      rewrite update_subscription_twice. unfold update_subscription.
      by erewrite alter_as_insert.
    + unfold timedelta_days, us_per_day. lia.
  - apply update_subscription_call_out_of_range.
Qed.

Lemma update_subscription_call_overwrites_witness :
  update_subscription_call 63900000000000000 7 1
    {[ 7 := UserRow (Some 9) (Some 0) 3 None ]}
  = (Ret tt,
     <[ 7 := UserRow (Some (63900000000000000 + timedelta_days (30 * 1)))
               (Some 0) 3 None ]>
       {[ 7 := UserRow (Some 9) (Some 0) 3 None ]}).
Proof.
  refine (proj1 (update_subscription_call_overwrites 63900000000000000 7 1
                   {[ 7 := UserRow (Some 9) (Some 0) 3 None ]}
                   (UserRow (Some 9) (Some 0) 3 None) _) _ _).
  - reflexivity.
  - unfold in_timedelta_range. lia.
  - unfold in_datetime_range. vm_compute. split; [discriminate|reflexivity].
Defined.

(** C5 as worded fails for [months] out of range: for 400000 months the
    date is past the year 9999, the call raises and the row keeps the
    [subscribed_until] it had. *)
Lemma update_subscription_call_every_months_counterexample :
  let db : users_table := {[ 7 := UserRow (Some 9) (Some 0) 3 None ]} in
  update_subscription_call 63900000000000000 7 400000 db
  = (Raise OverflowError, db) /\
  subscription_of 7 (update_subscription_call 63900000000000000 7 400000 db).2
  = Some 9 /\
  Some 9 <> Some (63900000000000000 + timedelta_days (30 * 400000)).
Proof. repeat split; vm_compute; done. Qed.

(** ** Creation of rows *)

Section handler_lemmas.
Implicit Types (w : world) (cb : callback_query).

(** [check_payment] touches the table only through one
    [update_subscription] for the user of the callback. *)
Lemma check_payment_users provider now cb w :
  users (check_payment provider now cb w).2 = users w \/
  exists uid, from_user cb = Some uid /\
    users (check_payment provider now cb w).2
    = update_subscription now uid 1 (users w).
Proof.
  unfold check_payment.
  destruct (data cb) as [d|], (message cb) as [chat|]; simpl; auto.
  unfold bind, lift, emit; simpl.
  destruct (subscript _ _) as [inv|e]; simpl; auto.
  destruct (check_invoice_status provider inv) as [status|e]; simpl; auto.
  destruct (py_eq_str status "paid"); simpl; auto.
  destruct (from_user cb) as [uid|]; simpl; eauto.
Qed.

Lemma check_payment_creates_no_row provider now cb w uid :
  users w !! uid = None ->
  users (check_payment provider now cb w).2 !! uid = None.
Proof.
  intros Hw.
  destruct (check_payment_users provider now cb w) as [->|(u & _ & ->)];
    [done|].
  unfold update_subscription. by apply lookup_alter_None.
Qed.

End handler_lemmas.

(** C4, as the code has it: the row of a user without one is created by
    that user's first [check_access], which answers true, and it has
    [last_request_date] = today, [requests_today] = 1 (the creating request
    is counted at once), no subscription and no invoice; nothing else
    creates a row: not [get_remaining_requests], [update_subscription],
    [reset_daily_limits] or [check_payment]. *)
Theorem first_check_access_creates_row user_id db :
  db !! user_id = None ->
  (forall now0 now1,
     check_access now0 now1 user_id db
     = (true, <[user_id := {| subscribed_until := None;
                              last_request_date := Some (strftime_Ymd now0);
                              requests_today := 1;
                              invoice_id := None |}]> db)) /\
  (forall now, (get_remaining_requests now user_id db).2 !! user_id = None) /\
  (forall now u months, update_subscription now u months db !! user_id = None) /\
  reset_daily_limits db !! user_id = None /\
  (forall provider now cb tr,
     users (check_payment provider now cb {| users := db; trace := tr |}).2
       !! user_id = None).
Proof.
  intros Hr. repeat split.
  - intros now0 now1. unfold check_access. by rewrite Hr.
  - intros now. by rewrite get_remaining_requests_no_row.
  - intros now u months. unfold update_subscription. by apply lookup_alter_None.
  - unfold reset_daily_limits. by rewrite lookup_fmap, Hr.
  - intros provider now cb tr. by apply check_payment_creates_no_row.
Qed.

Lemma first_check_access_creates_row_witness :
  check_access 100 101 7 ∅ = (true, {[ 7 := UserRow None (Some 0) 1 None ]}).
Proof.
  refine (proj1 (first_check_access_creates_row 7 ∅ _) 100 101).
  reflexivity.
Defined.

(** C4 as worded fails: the row that the first contact creates counts one
    request, not none. *)
Lemma created_row_requests_today_counterexample :
  requests_today <$> ((check_access 100 101 7 ∅).2 !! 7) = Some 1 /\
  requests_today <$> ((check_access 100 101 7 ∅).2 !! 7) <> Some 0.
Proof. split; vm_compute; [reflexivity|discriminate]. Qed.

(** ** Payment checks *)

Section payment.
Implicit Types (w : world) (cb : callback_query).


Lemma extend_calls_app uid tr1 tr2 :
  extend_calls uid (tr1 ++ tr2)
  = (extend_calls uid tr1 + extend_calls uid tr2)%nat.
Proof.
  induction tr1 as [|e tr1 IH]; simpl; [done|].
  destruct e; try done. case_bool_decide; simpl; by rewrite IH.
Qed.

(** A status other than the string "paid", and any failure of the
    request, never reaches [update_subscription]. *)
Lemma check_payment_not_paid provider now cb w d inv :
  data cb = Some d ->
  split "_" d !! 2%nat = Some inv ->
  check_invoice_status provider inv <> Ret (JStr "paid") ->
  users (check_payment provider now cb w).2 = users w /\
  forall uid, extend_calls uid (trace (check_payment provider now cb w).2)
              = extend_calls uid (trace w).
Proof.
  intros Hd Hinv Hst. unfold check_payment. rewrite Hd.
  destruct (message cb) as [chat|]; simpl.
  2: { split; [done|]. intros uid. rewrite extend_calls_app. simpl. lia. }
  unfold bind, lift, emit, subscript; simpl. rewrite Hinv; simpl.
  destruct (check_invoice_status provider inv) as [status|e]; simpl.
  - destruct status as [|b|n|s|l|items]; simpl.
    4: destruct (String.eqb_spec s "paid") as [->|_]; [done|simpl].
    all: split; [done|]; intros uid.
    all: rewrite !extend_calls_app; simpl; lia.
  - split; [done|]. intros uid. rewrite extend_calls_app. simpl. lia.
Qed.

(** A failure of the request leaves the handler through the exception,
    after the empty answer to the callback and before any message. *)
Lemma check_payment_raises provider now cb w d chat inv e :
  data cb = Some d -> message cb = Some chat ->
  split "_" d !! 2%nat = Some inv ->
  check_invoice_status provider inv = Raise e ->
  check_payment provider now cb w
  = (Raise e, {| users := users w; trace := trace w ++ [CallbackAnswer None] |}).
Proof.
  intros Hd Hm Hinv Hst. unfold check_payment. rewrite Hd, Hm.
  unfold bind, lift, emit, subscript. simpl. rewrite Hinv. simpl.
  by rewrite Hst.
Qed.

End payment.




(** C3, at the failing input: when the request to the provider fails,
    [check_invoice_status] raises and [check_payment] lets the exception
    through: the callback gets its empty answer, no message is sent. *)
Theorem check_payment_connection_failed_raises :
  check_invoice_status Scenario.provider_down "INV-1"
  = Raise ClientConnectionError /\
  check_payment Scenario.provider_down 5 Scenario.button Scenario.one_request
  = (Raise ClientConnectionError,
     {| users := users Scenario.one_request; trace := [CallbackAnswer None] |}).
Proof. split; reflexivity. Qed.

(** C10: for a user without a row, [update_subscription] leaves the table
    as it was: no row is created, the user still has no [subscribed_until],
    and the next [check_access] for this user is answered exactly as if
    [update_subscription] had not been called, through the new-user
    insertion, whose row has no subscription; so [check_payment] pressed
    by such a user leaves the table as it was whatever the provider says. *)
Theorem update_subscription_no_row now user_id months db :
  db !! user_id = None ->
  update_subscription now user_id months db = db /\
  update_subscription now user_id months db !! user_id = None /\
  subscription_of user_id (update_subscription now user_id months db) = None /\
  (forall now0 now1,
     check_access now0 now1 user_id (update_subscription now user_id months db)
     = (true, <[user_id := new_user_row (strftime_Ymd now0)]> db) /\
     subscription_of user_id (<[user_id := new_user_row (strftime_Ymd now0)]> db)
     = None) /\
  (forall provider cb tr,
     from_user cb = Some user_id ->
     users (check_payment provider now cb {| users := db; trace := tr |}).2 = db).
Proof.
  intros Hr.
  assert (forall t m, update_subscription t user_id m db = db) as Heq
    by (intros; by apply alter_absent).
  rewrite Heq. repeat split; try done.
  - unfold subscription_of. by rewrite Hr.
  - unfold check_access. by rewrite Hr.
  - unfold subscription_of. by rewrite lookup_insert_eq.
  - intros provider cb tr Hu.
    destruct (check_payment_users provider now cb {| users := db; trace := tr |})
      as [->|(u & Hu' & ->)]; [done|].
    simpl. rewrite Hu in Hu'. injection Hu' as <-. apply Heq.
Qed.

Lemma update_subscription_no_row_witness :
  update_subscription 5 7 1 ∅ = ∅.
Proof.
  refine (proj1 (update_subscription_no_row 5 7 1 ∅ _)).
  reflexivity.
Defined.


(** * Further properties of the store operations *)

Section access_lemmas.
Implicit Types (db : users_table) (r : user_row).

Lemma check_access_row now0 now1 uid db r :
  db !! uid = Some r ->
  check_access now0 now1 uid db
  = if subscription_active now1 (subscribed_until r) then (true, db)
    else if decide (last_request_date r = Some (strftime_Ymd now0)) then
      if decide (requests_today r < MAX_FREE_REQUESTS_PER_DAY)
      then (true, <[uid := set_requests_today (fun n => n + 1) r]> db)
      else (false, db)
    else (true, <[uid := set_last_request (strftime_Ymd now0) 1 r]> db).
Proof.
  intros Hr. unfold check_access. rewrite Hr.
  destruct (subscription_active _ _); [done|].
  repeat case_bool_decide; repeat case_decide; simpl; try done.
  all: by erewrite alter_as_insert.
Qed.

Lemma check_access_no_row now0 now1 uid db :
  db !! uid = None ->
  check_access now0 now1 uid db
  = (true, <[uid := new_user_row (strftime_Ymd now0)]> db).
Proof. intros Hr. unfold check_access. by rewrite Hr. Qed.

End access_lemmas.

(** X1: [check_access] for one user reads and writes that user's row only:
    every other user's row is the same after the call. *)
Theorem check_access_other_users now0 now1 user_id other db :
  user_id <> other ->
  (check_access now0 now1 user_id db).2 !! other = db !! other.
Proof.
  intros Hne. destruct (db !! user_id) as [r|] eqn:Hr.
  - rewrite (check_access_row _ _ _ _ r) by done.
    destruct (subscription_active _ _); [done|].
    repeat case_decide; simpl; try done; by rewrite lookup_insert_ne.
  - rewrite check_access_no_row by done. simpl. by rewrite lookup_insert_ne.
Qed.

Lemma check_access_other_users_witness :
  (check_access 100 101 7 {[ 8 := UserRow None (Some 0) 4 None ]}).2 !! 8
  = ({[ 8 := UserRow None (Some 0) 4 None ]} : users_table) !! 8.
Proof. apply (check_access_other_users 100 101 7 8). lia. Defined.

(** X2: [check_access] refuses exactly when the user has a row, the
    subscription test fails, the row's [last_request_date] is today and
    [requests_today] has reached the limit; a refusal changes nothing in the
    table. *)
Theorem check_access_refusal now0 now1 user_id db :
  ((check_access now0 now1 user_id db).1 = false <->
   exists r, db !! user_id = Some r /\
     subscription_active now1 (subscribed_until r) = false /\
     last_request_date r = Some (strftime_Ymd now0) /\
     MAX_FREE_REQUESTS_PER_DAY <= requests_today r) /\
  ((check_access now0 now1 user_id db).1 = false ->
   (check_access now0 now1 user_id db).2 = db).
Proof.
  destruct (db !! user_id) as [r|] eqn:Hr.
  - rewrite (check_access_row _ _ _ _ r) by done.
    destruct (subscription_active _ _) eqn:Ha; simpl.
    { split; [|done]. split; [done|]. intros (r' & ? & ? & _). congruence. }
    repeat case_decide; simpl; (split; [split|]); try done.
    + intros (r' & ? & _ & _ & ?). simplify_eq. lia.
    + intros _. exists r. repeat split; try done. lia.
    + intros (r' & ? & _ & ? & _). by simplify_eq.
  - rewrite check_access_no_row by done. simpl.
    split; [|done]. split; [done|]. by intros (r & ? & _).
Qed.

Lemma check_access_refusal_witness :
  (check_access 100 101 7 {[ 7 := UserRow None (Some 0) 10 None ]}).2
  = {[ 7 := UserRow None (Some 0) 10 None ]}.
Proof.
  apply (proj2 (check_access_refusal 100 101 7
                  {[ 7 := UserRow None (Some 0) 10 None ]})).
  reflexivity.
Defined.

(** X3: for a user whose subscription test fails, [check_access] lets the
    request in exactly when [get_remaining_requests], read on the same day
    before the request, is positive; and when it lets the request in,
    [get_remaining_requests] read after it on that day is one less than
    before. *)
Theorem check_access_agrees_with_remaining now0 now1 now2 user_id db :
  strftime_Ymd now2 = strftime_Ymd now0 ->
  (forall r, db !! user_id = Some r ->
             subscription_active now1 (subscribed_until r) = false) ->
  ((check_access now0 now1 user_id db).1 = true <->
   0 < (get_remaining_requests now2 user_id db).1) /\
  ((check_access now0 now1 user_id db).1 = true ->
   (get_remaining_requests now2 user_id (check_access now0 now1 user_id db).2).1
   = (get_remaining_requests now2 user_id db).1 - 1).
Proof.
  intros Hday Hsub. unfold get_remaining_requests. rewrite Hday.
  destruct (db !! user_id) as [r|] eqn:Hr.
  - rewrite (check_access_row _ _ _ _ r) by done. rewrite (Hsub r) by done.
    repeat case_decide; simpl; rewrite ?lookup_insert_eq; simpl.
    all: repeat case_bool_decide; simpl; try done.
    all: unfold MAX_FREE_REQUESTS_PER_DAY in *; split; [split|]; try done.
    all: try lia.
  - rewrite check_access_no_row by done. simpl. rewrite lookup_insert_eq. simpl.
    rewrite bool_decide_eq_true_2 by done. simpl.
    unfold MAX_FREE_REQUESTS_PER_DAY. split; [split|]; try done; lia.
Qed.

Lemma check_access_agrees_with_remaining_witness :
  (check_access 100 101 7 {[ 7 := UserRow (Some 50) (Some 0) 9 None ]}).1 = true
  <-> 0 < (get_remaining_requests 102 7
             {[ 7 := UserRow (Some 50) (Some 0) 9 None ]}).1.
Proof.
  apply (check_access_agrees_with_remaining 100 101 102 7).
  - reflexivity.
  - intros r Hr. vm_compute in Hr. injection Hr as <-. reflexivity.
Defined.

Section serve_lemmas.
Implicit Types (db : users_table) (r : user_row).

(** Requests of one day by a user whose subscription test fails each time:
    as many are let in as the row's count leaves below the limit. *)
Lemma serve_same_day reads uid db r d :
  db !! uid = Some r ->
  last_request_date r = Some d ->
  Forall (fun p => strftime_Ymd p.1 = d /\
                   subscription_active p.2 (subscribed_until r) = false) reads ->
  let k := Z.to_nat (MAX_FREE_REQUESTS_PER_DAY - requests_today r) in
  (serve reads uid db).1
  = replicate (length reads `min` k) true ++ replicate (length reads - k) false /\
  exists r', (serve reads uid db).2 !! uid = Some r' /\
    requests_today r' = requests_today r + Z.of_nat (length reads `min` k) /\
    last_request_date r' = Some d.
Proof.
  intros Hr Hd Hall. revert db r Hr Hd Hall.
  induction reads as [|[now0 now1] reads IH]; intros db r Hr Hd Hall k.
  { simpl. split; [done|]. exists r. repeat split; [done|lia|done]. }
  apply Forall_cons in Hall as [[Hday Hsub] Hall]. simpl in Hday, Hsub.
  simpl. rewrite (check_access_row _ _ _ _ r) by done.
  rewrite Hsub, Hday, decide_True by done.
  destruct (decide (requests_today r < MAX_FREE_REQUESTS_PER_DAY)) as [Hlt|Hge].
  - set (r1 := set_requests_today (fun n => n + 1) r).
    destruct (IH (<[uid := r1]> db) r1) as [Hans (r' & Hr' & Hcount & Hdate)];
      [apply lookup_insert_eq|done|done|].
    destruct (serve reads uid (<[uid := r1]> db)) as [oks db2]. simpl in *.
    assert (k = S (Z.to_nat (MAX_FREE_REQUESTS_PER_DAY - (requests_today r + 1))))
      as -> by (subst k; lia).
    simpl. split; [by rewrite Hans|].
    exists r'. repeat split; [done|lia|done].
  - destruct (IH db r) as [Hans (r' & Hr' & Hcount & Hdate)]; [done..|].
    destruct (serve reads uid db) as [oks db2]. simpl in *.
    subst k.
    replace (Z.to_nat (MAX_FREE_REQUESTS_PER_DAY - requests_today r))
      with 0%nat in * by lia.
    rewrite Nat.min_0_r, Nat.sub_0_r in Hans. rewrite Nat.min_0_r in Hcount.
    simpl. split; [by rewrite Hans|].
    exists r'. repeat split; [done|lia|done].
Qed.

End serve_lemmas.

(** X4: a user without a row who sends any number of requests on one
    day, one after the other, each call of [check_access] finished before
    the next begins, gets the first [MAX_FREE_REQUESTS_PER_DAY] (10) of them
    let in and every later one refused, and the row then counts the requests
    let in. *)
Theorem serve_fresh_user reads user_id db d :
  db !! user_id = None ->
  reads <> [] ->
  Forall (fun p => strftime_Ymd p.1 = d) reads ->
  (serve reads user_id db).1
  = replicate (length reads `min` 10) true ++ replicate (length reads - 10) false /\
  exists r, (serve reads user_id db).2 !! user_id = Some r /\
    requests_today r = Z.of_nat (length reads `min` 10) /\
    last_request_date r = Some d.
Proof.
  intros Hr Hne Hall. destruct reads as [|[now0 now1] reads]; [done|].
  apply Forall_cons in Hall as [Hday Hall]. simpl in Hday.
  simpl. rewrite check_access_no_row by done. rewrite Hday.
  destruct (serve_same_day reads user_id
              (<[user_id := new_user_row d]> db) (new_user_row d) d)
    as [Hans (r' & Hr' & Hcount & Hdate)].
  - apply lookup_insert_eq.
  - done.
  - eapply Forall_impl; [exact Hall|]. by intros [??] ?.
  - destruct (serve reads user_id _) as [oks db2]. simpl in *.
    change (Z.to_nat (MAX_FREE_REQUESTS_PER_DAY - 1)) with 9%nat in *.
    split; [by rewrite Hans|].
    exists r'. repeat split; [done|lia|done].
Qed.

Lemma serve_fresh_user_witness :
  (serve (replicate 12 (100, 101)) 7 ∅).1
  = replicate (12 `min` 10) true ++ replicate (12 - 10) false.
Proof.
  apply (serve_fresh_user (replicate 12 (100, 101)) 7 ∅ 0).
  - reflexivity.
  - discriminate.
  - repeat constructor.
Defined.

(** X5: when [30*months] days and the clock of the call plus these days
    are in range, [update_subscription] for a user that has a row does not
    raise, and then every [check_access] whose subscription test reads a
    clock earlier than that date answers true and changes nothing, while
    from that date on a refusal is again a matter of the day and the count
    alone; out of range the call raises [OverflowError] and leaves the table
    as it was, so that nothing is granted. *)
Theorem update_subscription_grants_access now months now0 now1 user_id db r :
  db !! user_id = Some r ->
  let call := update_subscription_call now user_id months db in
  (in_timedelta_range (30 * months) ->
   in_datetime_range (now + timedelta_days (30 * months)) ->
   call.1 = Ret tt /\
   (now1 < now + timedelta_days (30 * months) ->
    check_access now0 now1 user_id call.2 = (true, call.2)) /\
   (now + timedelta_days (30 * months) <= now1 ->
    ((check_access now0 now1 user_id call.2).1 = false <->
     last_request_date r = Some (strftime_Ymd now0) /\
     MAX_FREE_REQUESTS_PER_DAY <= requests_today r))) /\
  (~ (in_timedelta_range (30 * months) /\
      in_datetime_range (now + timedelta_days (30 * months))) ->
   call = (Raise OverflowError, db)).
Proof.
  intros Hr call. subst call. split.
  - intros Hd Ht. rewrite update_subscription_call_in_range by done. simpl.
    assert (update_subscription now user_id months db !! user_id
            = Some (set_subscribed_until (now + timedelta_days (30 * months)) r))
      as Hr'.
    { rewrite update_subscription_lookup, decide_True by done. by rewrite Hr. }
    split; [done|]. split; intros Hlt.
    + rewrite (check_access_row _ _ _ _ _ Hr'). simpl.
      by rewrite bool_decide_eq_true_2.
    + rewrite (check_access_row _ _ _ _ _ Hr'). simpl.
      rewrite bool_decide_eq_false_2 by lia.
      repeat case_decide; simpl; split; try done.
      all: try (intros [? ?]; done || lia).
      intros _. split; [done|lia].
  - apply update_subscription_call_out_of_range.
Qed.

Lemma update_subscription_grants_access_witness :
  let db : users_table := {[ 7 := UserRow None (Some 0) 10 None ]} in
  let call := update_subscription_call 63900000000000000 7 1 db in
  call.1 = Ret tt /\
  (63900000000000200 < 63900000000000000 + timedelta_days (30 * 1) ->
   check_access 63900000000000100 63900000000000200 7 call.2 = (true, call.2)) /\
  (63900000000000000 + timedelta_days (30 * 1) <= 63900000000000200 ->
   ((check_access 63900000000000100 63900000000000200 7 call.2).1 = false <->
    last_request_date (UserRow None (Some 0) 10 None)
    = Some (strftime_Ymd 63900000000000100) /\
    MAX_FREE_REQUESTS_PER_DAY <= requests_today (UserRow None (Some 0) 10 None))).
Proof.
  intros db.
  refine (proj1 (update_subscription_grants_access 63900000000000000 1
                   63900000000000100 63900000000000200 7 db
                   (UserRow None (Some 0) 10 None) _) _ _).
  - reflexivity.
  - unfold in_timedelta_range. lia.
  - unfold in_datetime_range. vm_compute. split; [discriminate|reflexivity].
Defined.

(** X6: right after [reset_daily_limits], [get_remaining_requests] gives
    the full limit for every user, with or without a row and whatever day
    the row carries. *)
Theorem reset_daily_limits_restores_quota now user_id db :
  (get_remaining_requests now user_id (reset_daily_limits db)).1
  = MAX_FREE_REQUESTS_PER_DAY.
Proof.
  unfold get_remaining_requests, reset_daily_limits. rewrite lookup_fmap.
  destruct (db !! user_id) as [r|]; simpl; [|done].
  by case_bool_decide.
Qed.

#[local] Set Warnings "-clear-no-such-hyp".

Section reachable_lemmas.
Implicit Types (db : users_table) (r : user_row).

Lemma check_access_dom now0 now1 uid db :
  dom (check_access now0 now1 uid db).2 = {[ uid ]} ∪ dom db.
Proof.
  destruct (db !! uid) as [r|] eqn:Hr.
  - assert (uid ∈ dom db) by (apply elem_of_dom; eauto).
    rewrite (check_access_row _ _ _ _ r) by done.
    destruct (subscription_active _ _); simpl; [set_solver|].
    repeat case_decide; simpl; rewrite ?dom_insert_L; set_solver.
  - rewrite check_access_no_row by done. simpl. by rewrite dom_insert_L.
Qed.

Lemma step_dom db o :
  dom (step db o) = dom db ∪ requesters [o].
Proof.
  destruct o as [now0 now1 uid|now uid months|]; simpl.
  - rewrite check_access_dom. set_solver.
  - unfold update_subscription. rewrite dom_alter_L. set_solver.
  - unfold reset_daily_limits. rewrite dom_fmap_L. set_solver.
Qed.

Lemma run_dom ops db :
  dom (run ops db) = dom db ∪ requesters ops.
Proof.
  unfold run. revert db. induction ops as [|o ops IH]; intros db; simpl.
  - set_solver.
  - rewrite IH, step_dom. destruct o; simpl; set_solver.
Qed.

Lemma step_well_formed db o :
  map_Forall (fun _ => well_formed_row) db ->
  map_Forall (fun _ => well_formed_row) (step db o).
Proof.
  intros Hwf. destruct o as [now0 now1 uid|now uid months|]; simpl.
  - destruct (db !! uid) as [r|] eqn:Hr.
    + pose proof (Hwf uid r Hr) as (Hd & Hn & Hi).
      rewrite (check_access_row _ _ _ _ r) by done.
      destruct (subscription_active _ _); simpl; [done|].
      repeat case_decide; simpl; try done.
      all: apply map_Forall_insert_2; [|done].
      all: repeat split; simpl; eauto; lia.
    + rewrite check_access_no_row by done. simpl.
      apply map_Forall_insert_2; [|done].
      repeat split; simpl; eauto; lia.
  - intros k r'. rewrite update_subscription_lookup.
    case_decide; [|apply Hwf].
    destruct (db !! k) as [r|] eqn:Hr; [|done]. intros [= <-].
    exact (Hwf k r Hr).
  - intros k r'. unfold reset_daily_limits. rewrite lookup_fmap.
    destruct (db !! k) as [r|] eqn:Hr; [|done]. intros [= <-].
    pose proof (Hwf k r Hr) as (Hd & Hn & Hi).
    repeat split; simpl; eauto; lia.
Qed.

Lemma run_well_formed ops db :
  map_Forall (fun _ => well_formed_row) db ->
  map_Forall (fun _ => well_formed_row) (run ops db).
Proof.
  unfold run. revert db.
  induction ops as [|o ops IH]; intros db Hwf; simpl; [done|].
  by apply IH, step_well_formed.
Qed.

End reachable_lemmas.

(** X7: in every table that [check_access], [update_subscription] and
    [reset_daily_limits] build from the empty one, each row has a day in
    [last_request_date], a count that is not negative and an empty
    [invoice_id]: nothing ever writes the [invoice_id] column. *)
Theorem reachable_rows_well_formed ops user_id r :
  run ops ∅ !! user_id = Some r ->
  is_Some (last_request_date r) /\
  0 <= requests_today r /\
  invoice_id r = None.
Proof.
  intros Hr.
  exact (run_well_formed ops ∅ (map_Forall_empty _) user_id r Hr).
Qed.

Lemma reachable_rows_well_formed_witness :
  is_Some (last_request_date (UserRow (Some 2592000000200) (Some 0) 0 None)) /\
  0 <= requests_today (UserRow (Some 2592000000200) (Some 0) 0 None) /\
  invoice_id (UserRow (Some 2592000000200) (Some 0) 0 None) = None.
Proof.
  apply (reachable_rows_well_formed
           [Op_check_access 100 101 7; Op_update_subscription 200 7 1;
            Op_reset_daily_limits] 7).
  vm_compute. reflexivity.
Defined.

(** X8: a table built from the empty one has a row for exactly the users
    for whom [check_access] was called: [update_subscription] and
    [reset_daily_limits] neither create nor delete a row, and no operation
    deletes one. *)
Theorem rows_are_the_requesters ops user_id :
  is_Some (run ops ∅ !! user_id) <-> user_id ∈ requesters ops.
Proof.
  rewrite <- elem_of_dom, run_dom, dom_empty_L. set_solver.
Qed.

(** * Midnight *)

Section midnight_lemmas.

Lemma next_midnight_eq now :
  next_midnight now = (strftime_Ymd now + 1) * us_per_day.
Proof.
  unfold next_midnight, replace_midnight, strftime_Ymd, timedelta_days.
  by rewrite Z.div_add.
Qed.

Lemma strftime_Ymd_bounds t :
  strftime_Ymd t * us_per_day <= t < (strftime_Ymd t + 1) * us_per_day.
Proof.
  unfold strftime_Ymd. change us_per_day with 86400000000.
  Z.to_euclidean_division_equations. lia.
Qed.

Lemma strftime_Ymd_unique t d :
  d * us_per_day <= t < (d + 1) * us_per_day -> strftime_Ymd t = d.
Proof.
  unfold strftime_Ymd. change us_per_day with 86400000000. intros ?.
  Z.to_euclidean_division_equations. lia.
Qed.

End midnight_lemmas.

(** X9: the midnight that [scheduled_reset] and [get_time_until_midnight]
    compute is the first instant of the next day: it is later than now by
    at most one day (so the sleep of [scheduled_reset] is positive and at
    most 24 hours), every instant from now up to it is still on today's
    date, and it is on tomorrow's. *)
Theorem next_midnight_is_next_day now :
  0 < sleep_until_midnight now <= us_per_day /\
  strftime_Ymd (next_midnight now) = strftime_Ymd now + 1 /\
  (forall t, now <= t < next_midnight now -> strftime_Ymd t = strftime_Ymd now).
Proof.
  unfold sleep_until_midnight. rewrite next_midnight_eq.
  pose proof (strftime_Ymd_bounds now) as Hb.
  split; [lia|]. split.
  - apply strftime_Ymd_unique. lia.
  - intros t Ht. apply strftime_Ymd_unique. lia.
Qed.

Lemma next_midnight_is_next_day_witness :
  strftime_Ymd 86399999999 = strftime_Ymd 100.
Proof.
  apply (proj2 (proj2 (next_midnight_is_next_day 100))).
  split; vm_compute; [discriminate|reflexivity].
Defined.

(** X10: the hours and minutes that [get_time_until_midnight] prints are
    within 0..23 and 0..59 and, unless now is exactly midnight, they are the
    time left until the next midnight rounded down to the minute; at exactly
    midnight they are 0 and 0 although a whole day is left, because
    [delta.seconds] leaves out [delta.days]. *)
Theorem hours_minutes_until_midnight_spec now :
  let h := (hours_minutes_until_midnight now).1 in
  let m := (hours_minutes_until_midnight now).2 in
  let left := (next_midnight now - now) `div` 1000000 in
  0 <= h <= 23 /\ 0 <= m <= 59 /\
  (now `mod` us_per_day <> 0 ->
   h * 3600 + m * 60 <= left < h * 3600 + m * 60 + 60) /\
  (now `mod` us_per_day = 0 -> h = 0 /\ m = 0 /\ left = 86400).
Proof.
  intros h m left. subst h m left.
  unfold hours_minutes_until_midnight, timedelta_seconds. simpl.
  rewrite next_midnight_eq. unfold strftime_Ymd.
  change us_per_day with 86400000000.
  Z.to_euclidean_division_equations. lia.
Qed.

Lemma hours_minutes_until_midnight_spec_witness :
  (hours_minutes_until_midnight 0).1 = 0 /\
  (hours_minutes_until_midnight 0).2 = 0 /\
  (next_midnight 0 - 0) `div` 1000000 = 86400.
Proof.
  apply (proj2 (proj2 (proj2 (hours_minutes_until_midnight_spec 0)))).
  reflexivity.
Defined.

(** X11: once the midnight after a row's last request has passed, the
    next [check_access] of a user whose subscription test fails is let in
    and starts the count at 1 on the new day, however many requests the row
    counted; whether [reset_daily_limits] ran in between makes no difference
    to the answer or to the row. *)
Theorem check_access_after_midnight now now0 now1 user_id db r :
  db !! user_id = Some r ->
  last_request_date r = Some (strftime_Ymd now) ->
  next_midnight now <= now0 ->
  subscription_active now1 (subscribed_until r) = false ->
  check_access now0 now1 user_id db
  = (true, <[user_id := set_last_request (strftime_Ymd now0) 1 r]> db) /\
  (check_access now0 now1 user_id (reset_daily_limits db)).1 = true /\
  (check_access now0 now1 user_id (reset_daily_limits db)).2 !! user_id
  = Some (set_last_request (strftime_Ymd now0) 1 r).
Proof.
  intros Hr Hd Hmid Hsub.
  assert (last_request_date r <> Some (strftime_Ymd now0)) as Hne.
  { rewrite Hd. intros [= Heq]. rewrite next_midnight_eq in Hmid.
    pose proof (strftime_Ymd_bounds now0). rewrite <- Heq in *. lia. }
  split; [|split].
  - rewrite (check_access_row _ _ _ _ r) by done.
    by rewrite Hsub, decide_False.
  - rewrite (check_access_row _ _ _ _ (set_requests_today (fun _ => 0) r))
      by (unfold reset_daily_limits; by rewrite lookup_fmap, Hr).
    simpl. by rewrite Hsub, decide_False.
  - rewrite (check_access_row _ _ _ _ (set_requests_today (fun _ => 0) r))
      by (unfold reset_daily_limits; by rewrite lookup_fmap, Hr).
    simpl. rewrite Hsub, decide_False by done. simpl.
    by rewrite lookup_insert_eq.
Qed.

Lemma check_access_after_midnight_witness :
  check_access 86400000000 86400000001 7
    {[ 7 := UserRow None (Some 0) 10 None ]}
  = (true, <[ 7 := set_last_request 1 1 (UserRow None (Some 0) 10 None) ]>
             {[ 7 := UserRow None (Some 0) 10 None ]}).
Proof.
  refine (proj1 (check_access_after_midnight 100 86400000000 86400000001 7
                   {[ 7 := UserRow None (Some 0) 10 None ]}
                   (UserRow None (Some 0) 10 None) _ _ _ _)).
  - reflexivity.
  - reflexivity.
  - vm_compute. discriminate.
  - reflexivity.
Defined.

(** * The payment provider's answers *)

(** X12: [check_invoice_status] gives "paid" exactly when the provider's
    answer is a JSON object whose "result" is an object whose "status" is the
    string "paid". *)
Theorem check_invoice_status_paid_iff provider inv :
  check_invoice_status provider inv = Ret (JStr "paid") <->
  exists items result,
    provider inv = Body (JObj items) /\
    dict_lookup "result" items = Some (JObj result) /\
    dict_lookup "status" result = Some (JStr "paid").
Proof.
  unfold check_invoice_status. split.
  - destruct (provider inv) as [| |j|e]; try done.
    destruct j as [|b|n|s|l|items]; try done. simpl.
    destruct (dict_lookup "result" items) as [res|] eqn:Hres; simpl; [|done].
    destruct res as [|b|n|s|l|ritems]; try done. simpl.
    destruct (dict_lookup "status" ritems) as [st|] eqn:Hst; simpl; [|done].
    intros [= ->]. eauto.
  - intros (items & result & -> & Hres & Hst). simpl.
    rewrite Hres. simpl. by rewrite Hst.
Qed.

(** X13: [check_invoice_status] raises exactly when the request or the
    decoding of the body raises, and then with that same exception (the
    client's connection error, the content type error, or any other one,
    such as a timeout or a JSON decode error), or when the decoded body is
    not an object or has a "result" that is not an object (attribute error);
    the function catches none of them. *)
Theorem check_invoice_status_raises_iff provider inv e :
  check_invoice_status provider inv = Raise e <->
  (provider inv = ConnectionFailed /\ e = ClientConnectionError) \/
  (provider inv = NotJson /\ e = ContentTypeError) \/
  provider inv = RequestRaises e \/
  (e = AttributeError /\
   exists j, provider inv = Body j /\
     match j with
     | JObj items =>
         match dict_lookup "result" items with
         | Some (JObj _) | None => False
         | Some _ => True
         end
     | _ => True
     end).
Proof.
  unfold check_invoice_status. split.
  - destruct (provider inv) as [| |j|e'].
    + intros [= <-]. by left.
    + intros [= <-]. right. by left.
    + intros Hraise. right. right. right.
      destruct j as [|b|n|s|l|items]; simpl in Hraise;
        try (injection Hraise as <-; split; [done|]; eexists; by split).
      destruct (dict_lookup "result" items) as [res|] eqn:Hres;
        simpl in Hraise; [|done].
      destruct res as [|b|n|s|l|ritems]; simpl in Hraise; try done.
      all: injection Hraise as <-; split; [done|].
      all: eexists; split; [done|]; simpl; by rewrite Hres.
    + intros [= <-]. right. right. by left.
  - intros [[-> ->]|[[-> ->]|[->|[-> (j & -> & Hj)]]]]; [done..|].
    destruct j as [|b|n|s|l|items]; try done. simpl.
    destruct (dict_lookup "result" items) as [res|]; [|done].
    by destruct res.
Qed.

(** * The button and its callback data *)

Section split_lemmas.

Lemma split_not_nil sep s : split sep s <> [].
Proof.
  destruct s as [|c s]; simpl; [done|].
  destruct (Ascii.eqb c sep); [done|]. by destruct (split sep s).
Qed.

Lemma split_no_sep sep s : has_char sep s = false -> split sep s = [s].
Proof.
  induction s as [|c s IH]; simpl; [done|].
  destruct (Ascii.eqb c sep); [done|]. intros Hs. by rewrite IH.
Qed.

Lemma split_app_sep sep a b :
  has_char sep a = false ->
  split sep (a +:+ String sep b) = a :: split sep b.
Proof.
  induction a as [|c a IH]; simpl.
  - intros _. by rewrite Ascii.eqb_refl.
  - destruct (Ascii.eqb c sep); [done|]. intros Ha. by rewrite IH.
Qed.

Lemma split_check_payment rest :
  split "_" (check_payment_data rest) = "check" :: "payment" :: split "_" rest.
Proof.
  unfold check_payment_data.
  change ("check_payment_" +:+ rest)
    with ("check" +:+ String "_" ("payment" +:+ String "_" rest)).
  rewrite split_app_sep by done. by rewrite split_app_sep by done.
Qed.

Lemma startswith_app prefix s :
  startswith prefix s = true -> exists rest, s = prefix +:+ rest.
Proof.
  revert s. induction prefix as [|c p IH]; intros s; simpl.
  - intros _. by exists s.
  - destruct s as [|c' s']; [done|].
    destruct (Ascii.eqb_spec c c') as [->|]; [|done].
    intros (rest & ->)%IH. by exists rest.
Qed.

End split_lemmas.

(** X14: the callback data that [buy_subscription] puts on the button
    gives the invoice's [uuid] back in [check_payment] when the [uuid] has no
    underscore; a [uuid] with an underscore is cut at the first one; and no
    callback data that starts with "check_payment_" makes [split('_')[2]]
    fail. *)
Theorem check_payment_data_round_trip :
  (forall uuid, has_char "_" uuid = false ->
     subscript (split "_" (check_payment_data uuid)) 2 = Ret uuid) /\
  (forall a b, has_char "_" a = false ->
     subscript (split "_" (check_payment_data (a +:+ "_" +:+ b))) 2 = Ret a) /\
  (forall d, startswith "check_payment_" d = true ->
     exists inv, subscript (split "_" d) 2 = Ret inv).
Proof.
  unfold subscript. repeat split.
  - intros uuid Hu. rewrite split_check_payment, split_no_sep by done. done.
  - intros a b Ha. rewrite split_check_payment.
    change (a +:+ "_" +:+ b) with (a +:+ String "_" b).
    by rewrite split_app_sep.
  - intros d (rest & ->)%startswith_app.
    change ("check_payment_" +:+ rest) with (check_payment_data rest).
    rewrite split_check_payment.
    destruct (split "_" rest) as [|inv parts] eqn:Hs.
    + by destruct (split_not_nil "_" rest).
    + by exists inv.
Qed.

Lemma check_payment_data_round_trip_witness :
  subscript (split "_" (check_payment_data "INV-1")) 2 = Ret "INV-1".
Proof.
  apply (proj1 check_payment_data_round_trip "INV-1"). reflexivity.
Defined.



(** * The two POST endpoints *)

(** X16: the dict that [create_cryptocloud_invoice] returns is the
    provider's answer itself only when the answer came with status 200 and
    is an object whose "status" is "success"; in every other case, a failed
    request, a body that is not JSON or not an object, another status,
    another "status", it is a dict with the one key "error" and a text. *)
Theorem invoice_result_cases repr reply :
  (exists body,
     reply = Response 200 (JsonBody (JObj body)) /\
     dict_lookup "status" body = Some (JStr "success") /\
     invoice_result repr reply = body) \/
  (exists text, invoice_result repr reply = error_dict text).
Proof.
  unfold invoice_result.
  destruct reply as [reason|status [reason|data]]; [right; eauto..|].
  destruct data as [|b|n|s|l|body]; [right; eauto..|].
  case_bool_decide as Hst; simpl; [|right; eauto]. subst status.
  unfold dict_get.
  destruct (dict_lookup "status" body) as [st|] eqn:Hlook; simpl;
    [|right; eauto].
  destruct st as [|b|n|s|l|items]; simpl; try (right; by eauto).
  destruct (String.eqb_spec s "success") as [->|]; simpl; [|right; eauto].
  left. by exists body.
Qed.

(** X17: [get_mistral_response] hands back something other than its two
    fixed texts only when the endpoint answered 200 with a body whose
    [choices[0].message.content] is that value; a 429 gives the "overloaded"
    text whatever the body, and a failed request, any other status, a body
    that is not JSON or lacks one of the keys give the apology. *)
Theorem mistral_result_cases reply :
  (forall v, mistral_result reply = v ->
     v <> JStr msg_mistral_error -> v <> JStr msg_overloaded ->
     exists data, reply = Response 200 (JsonBody data) /\
                  completion_content data = Some v) /\
  (forall body, mistral_result (Response 429 body) = JStr msg_overloaded) /\
  (forall status body, status <> 200 -> status <> 429 ->
     mistral_result (Response status body) = JStr msg_mistral_error) /\
  (forall reason, mistral_result (PostFailed reason) = JStr msg_mistral_error) /\
  (forall data, completion_content data = None ->
     mistral_result (Response 200 (JsonBody data)) = JStr msg_mistral_error).
Proof.
  split; [|split; [|split; [|split]]].
  - intros v <- Herr Hover. unfold mistral_result in *.
    destruct reply as [reason|status [reason|data]]; simpl in *; try done.
    + by repeat case_bool_decide.
    + repeat case_bool_decide; simpl in *; try done. subst status.
      destruct (completion_content data) as [c|] eqn:Hc; simpl in *; [|done].
      by exists data.
  - intros body. reflexivity.
  - intros status body H200 H429. unfold mistral_result.
    by rewrite !bool_decide_eq_false_2.
  - intros reason. reflexivity.
  - intros data Hc. unfold mistral_result. simpl. by rewrite Hc.
Qed.

Lemma mistral_result_cases_witness :
  exists data,
    Response 200 (JsonBody (JObj [("choices",
      JArr [JObj [("message", JObj [("content", JStr "hi")])]])]))
    = Response 200 (JsonBody data) /\
    completion_content data = Some (JStr "hi").
Proof.
  apply (proj1 (mistral_result_cases _) (JStr "hi")).
  - reflexivity.
  - discriminate.
  - discriminate.
Defined.

(** * The message handlers *)

Section bot_lemmas.

Lemma get_remaining_requests_pair now uid db :
  get_remaining_requests now uid db = ((get_remaining_requests now uid db).1, db).
Proof.
  unfold get_remaining_requests. destruct (db !! uid); [|done].
  by destruct (negb _).
Qed.

Lemma check_access_false_table now0 now1 uid db :
  (check_access now0 now1 uid db).1 = false ->
  (check_access now0 now1 uid db).2 = db.
Proof.
  destruct (db !! uid) as [r|] eqn:Hr.
  - rewrite (check_access_row _ _ _ _ r) by done.
    destruct (subscription_active _ _); [done|].
    by repeat case_decide.
  - by rewrite check_access_no_row.
Qed.

Lemma asked_app outs1 outs2 : asked (outs1 ++ outs2) = asked outs1 ++ asked outs2.
Proof.
  induction outs1 as [|o outs1 IH]; simpl; [done|].
  destruct o; simpl; by rewrite ?IH.
Qed.

End bot_lemmas.

Ltac asked_done :=
  repeat (rewrite asked_app || rewrite app_nil_r || (progress simpl)); done.

Ltac bot_unfold :=
  unfold Bot.handle_message, Bot.cmd_start, Bot.buy_subscription,
    Bot.create_cryptocloud_invoice, Bot.get_mistral_response,
    Bot.subscript_key, Bot.as_str,
    Bot.bind, Bot.on_table, Bot.send, Bot.request, Bot.try_except,
    Bot.ret, Bot.raise.

(** X18: a message with a sender and a text costs exactly one
    [check_access]: the table after [handle_message] is the table after that
    call, whatever the completion endpoint answers and whether or not the
    answer can be delivered; a request that was let in stays counted when
    the completion fails. *)
Theorem handle_message_charges_once telegram api now0 now1 now2 now3 m st :
  Bot.table (Bot.handle_message telegram api now0 now1 now2 now3 m st).2
  = match Bot.sender m, Bot.text m with
    | Some user_id, Some _ => (check_access now0 now1 user_id (Bot.table st)).2
    | _, _ => Bot.table st
    end.
Proof.
  bot_unfold.
  destruct (Bot.sender m) as [uid|]; [|by destruct (telegram _)].
  destruct (Bot.text m) as [prompt|]; [|by destruct (telegram _)].
  destruct (check_access now0 now1 uid (Bot.table st)) as [[|] db'] eqn:Hca;
    simpl.
  - destruct (telegram (Bot.SendChatAction _ _)); simpl; [|by destruct (telegram _)].
    destruct (mistral_result (api prompt)); simpl; try by destruct (telegram _).
    destruct (telegram (Bot.SendMessage _ s _)); simpl; [|by destruct (telegram _)].
    rewrite get_remaining_requests_pair. simpl.
    case_bool_decide; simpl; [|done].
    destruct (telegram (Bot.SendMessage _ (Bot.msg_remaining _) _)); simpl; [done|].
    by destruct (telegram _).
  - rewrite get_remaining_requests_pair. simpl. by destruct (telegram _).
Qed.

(** X19: [handle_message] asks the completion endpoint at most once, with
    the text of the message, and only for a request that [check_access] let
    in and after the "typing" action went through; a refused request, or a
    message without sender or text, never reaches the endpoint. *)
Theorem handle_message_asks_mistral telegram api now0 now1 now2 now3 m st :
  asked (Bot.outbox (Bot.handle_message telegram api now0 now1 now2 now3 m st).2)
  = asked (Bot.outbox st) ++
    match Bot.sender m, Bot.text m with
    | Some user_id, Some prompt =>
        if (check_access now0 now1 user_id (Bot.table st)).1
           && telegram (Bot.SendChatAction (Bot.chat m) "typing")
        then [prompt] else []
    | _, _ => []
    end.
Proof.
  bot_unfold.
  destruct (Bot.sender m) as [uid|]; [|destruct (telegram _); asked_done].
  destruct (Bot.text m) as [prompt|]; [|destruct (telegram _); asked_done].
  destruct (check_access now0 now1 uid (Bot.table st)) as [[|] db'] eqn:Hca;
    simpl.
  - destruct (telegram (Bot.SendChatAction _ _)); simpl;
      [|destruct (telegram _); asked_done].
    destruct (mistral_result (api prompt)); simpl;
      try (destruct (telegram _); asked_done).
    destruct (telegram (Bot.SendMessage _ s _)); simpl;
      [|destruct (telegram _); asked_done].
    rewrite get_remaining_requests_pair. simpl.
    case_bool_decide; simpl; [|asked_done].
    destruct (telegram (Bot.SendMessage _ (Bot.msg_remaining _) _)); simpl;
      [asked_done|].
    destruct (telegram _); asked_done.
  - rewrite get_remaining_requests_pair. simpl.
    destruct (telegram _); asked_done.
Qed.

(** X20: when [check_access] lets the request in, every Telegram call goes
    through and the completion is a string, [handle_message] sends the
    "typing" action, asks the endpoint, sends the completion, and then reads
    [get_remaining_requests]: the notice of the requests left follows exactly
    when that number is 3 or less, for a subscriber as for anyone else. *)
Theorem handle_message_answers
  telegram api now0 now1 now2 now3 m st user_id prompt db' answer :
  Bot.sender m = Some user_id ->
  Bot.text m = Some prompt ->
  check_access now0 now1 user_id (Bot.table st) = (true, db') ->
  (forall o, telegram o = true) ->
  mistral_result (api prompt) = JStr answer ->
  let remaining := (get_remaining_requests now2 user_id db').1 in
  Bot.handle_message telegram api now0 now1 now2 now3 m st
  = (Bot.Ok tt,
     {| Bot.table := db';
        Bot.outbox :=
          Bot.outbox st ++
          [Bot.SendChatAction (Bot.chat m) "typing";
           Bot.MistralCompletion prompt;
           Bot.SendMessage (Bot.chat m) answer []] ++
          (if bool_decide (remaining <= 3)
           then [Bot.SendMessage (Bot.chat m) (Bot.msg_remaining remaining) []]
           else []) |}).
Proof.
  intros Hs Ht Hca Htg Hans remaining. subst remaining.
  bot_unfold. rewrite Hs, Ht, Hca. simpl. rewrite !Htg. simpl.
  rewrite Hans. simpl. rewrite !Htg. simpl.
  rewrite get_remaining_requests_pair. simpl.
  case_bool_decide; simpl; rewrite ?Htg; simpl.
  all: by rewrite <- !(assoc_L (++)).
Qed.

Lemma handle_message_answers_witness :
  let api := fun _ : string =>
    Response 200 (JsonBody (JObj [("choices",
      JArr [JObj [("message", JObj [("content", JStr "hi")])]])])) in
  let m := {| Bot.chat := 7; Bot.sender := Some 7; Bot.text := Some "q" |} in
  let st := {| Bot.table := {[ 7 := UserRow None (Some 0) 6 None ]};
               Bot.outbox := [] |} in
  let db' := (check_access 100 101 7 (Bot.table st)).2 in
  Bot.handle_message (fun _ => true) api 100 101 102 103 m st
  = (Bot.Ok tt,
     {| Bot.table := db';
        Bot.outbox :=
          [] ++
          [Bot.SendChatAction 7 "typing"; Bot.MistralCompletion "q";
           Bot.SendMessage 7 "hi" []] ++
          (if bool_decide ((get_remaining_requests 102 7 db').1 <= 3)
           then [Bot.SendMessage 7
                   (Bot.msg_remaining (get_remaining_requests 102 7 db').1) []]
           else []) |}).
Proof.
  intros api m st db'.
  apply (handle_message_answers (fun _ => true) api 100 101 102 103 m st 7 "q"
           db' "hi"); reflexivity.
Defined.

(** X21: a request that [check_access] let in never makes [handle_message]
    raise as long as the apology can be sent: whatever fails after the
    admission, a Telegram call or a completion that is not a string, ends in
    the [except] branch. *)
Theorem handle_message_catches
  telegram api now0 now1 now2 now3 m st user_id prompt :
  Bot.sender m = Some user_id ->
  Bot.text m = Some prompt ->
  (check_access now0 now1 user_id (Bot.table st)).1 = true ->
  telegram (Bot.SendMessage (Bot.chat m) Bot.msg_handler_error []) = true ->
  (Bot.handle_message telegram api now0 now1 now2 now3 m st).1 = Bot.Ok tt.
Proof.
  intros Hs Ht Hca Htg. bot_unfold. rewrite Hs, Ht.
  destruct (check_access now0 now1 user_id (Bot.table st)) as [ok db'].
  simpl in Hca. subst ok. simpl.
  destruct (telegram (Bot.SendChatAction _ _)); simpl; [|by rewrite Htg].
  destruct (mistral_result (api prompt)); simpl; try by rewrite Htg.
  destruct (telegram (Bot.SendMessage _ s _)); simpl; [|by rewrite Htg].
  rewrite get_remaining_requests_pair. simpl.
  case_bool_decide; simpl; [|done].
  destruct (telegram (Bot.SendMessage _ (Bot.msg_remaining _) _)); simpl; [done|].
  by rewrite Htg.
Qed.

Lemma handle_message_catches_witness :
  (Bot.handle_message
     (fun o => match o with Bot.SendChatAction _ _ => false | _ => true end)
     (fun _ => PostFailed "down") 100 101 102 103
     {| Bot.chat := 7; Bot.sender := Some 7; Bot.text := Some "q" |}
     {| Bot.table := ∅; Bot.outbox := [] |}).1 = Bot.Ok tt.
Proof.
  apply (handle_message_catches _ _ 100 101 102 103 _ _ 7 "q"); reflexivity.
Defined.

(** X22: a request that [check_access] refuses gets one message, the limit
    text with the hours and minutes until midnight, and nothing else
    happens: the table is as before and no other call is made; only a
    failure of that one send makes the handler raise. *)
Theorem handle_message_refused
  telegram api now0 now1 now2 now3 m st user_id prompt :
  Bot.sender m = Some user_id ->
  Bot.text m = Some prompt ->
  (check_access now0 now1 user_id (Bot.table st)).1 = false ->
  let notice :=
    Bot.SendMessage (Bot.chat m)
      (Bot.msg_limit (get_time_until_midnight now3)) [] in
  Bot.handle_message telegram api now0 now1 now2 now3 m st
  = if telegram notice
    then (Bot.Ok tt,
          {| Bot.table := Bot.table st; Bot.outbox := Bot.outbox st ++ [notice] |})
    else (Bot.Err Bot.TelegramError, st).
Proof.
  intros Hs Ht Hca notice. subst notice.
  pose proof (check_access_false_table now0 now1 user_id (Bot.table st) Hca)
    as Htable.
  bot_unfold. rewrite Hs, Ht.
  destruct (check_access now0 now1 user_id (Bot.table st)) as [ok db'].
  simpl in *. subst ok db'. simpl.
  rewrite get_remaining_requests_pair. simpl.
  destruct (telegram _); [done|]. by destruct st.
Qed.

(** * Order ids *)

Section order_id_lemmas.

Lemma pretty_N_char_not_underscore x : Ascii.eqb (pretty_N_char x) "_" = false.
Proof. unfold pretty_N_char. by repeat case_match. Qed.

Lemma pretty_N_go_no_underscore x s :
  has_char "_" s = false -> has_char "_" (pretty_N_go x s) = false.
Proof.
  revert s. induction (N.lt_wf_0 x) as [x _ IH]; intros s Hs.
  assert (x = 0 \/ 0 < x)%N as [->|Hpos] by lia.
  - by rewrite pretty_N_go_0.
  - rewrite pretty_N_go_step by done. apply IH.
    + by apply N.div_lt.
    + simpl. by rewrite pretty_N_char_not_underscore.
Qed.

Lemma pretty_Z_no_underscore (x : Z) : has_char "_" (pretty x) = false.
Proof.
  assert (forall n : N, has_char "_" (pretty n) = false) as HN.
  { intros n. unfold pretty, pretty_N. case_decide; [done|].
    by apply pretty_N_go_no_underscore. }
  destruct x as [|p|p]; [done|apply (HN (Npos p))|].
  unfold pretty, pretty_Z. simpl. apply (HN (Npos p)).
Qed.

Lemma app_sep_inj sep a a' b b' :
  has_char sep a = false -> has_char sep a' = false ->
  a +:+ String sep b = a' +:+ String sep b' -> a = a' /\ b = b'.
Proof.
  revert a'. induction a as [|c a IH]; intros [|c' a']; simpl.
  - intros _ _ [= ->]. done.
  - destruct (Ascii.eqb_spec c' sep) as [->|Hne]; [done|].
    intros _ _ [= <- _]. done.
  - destruct (Ascii.eqb_spec c sep) as [->|Hne]; [done|].
    intros _ _ [= -> _]. done.
  - destruct (Ascii.eqb c sep), (Ascii.eqb c' sep); try done.
    intros Ha Ha' [= -> Heq]. destruct (IH a' Ha Ha' Heq) as [-> ->]. done.
Qed.

End order_id_lemmas.

(** X23: the order id that [create_cryptocloud_invoice] sends determines
    the user and the second of the request: two order ids are equal exactly
    when both are the same, so only two requests of one user within one
    second share an order id. *)
Theorem make_order_id_inj user_id ts user_id' ts' :
  make_order_id user_id ts = make_order_id user_id' ts' <->
  user_id = user_id' /\ ts = ts'.
Proof.
  split; [|by intros [-> ->]].
  unfold make_order_id. intros Heq.
  apply (inj (String.append "sub_")) in Heq.
  apply app_sep_inj in Heq as [Hu Ht]; try apply pretty_Z_no_underscore.
  by apply (inj pretty) in Hu, Ht.
Qed.

(** * Start and purchase *)

(** X24: [cmd_start] and [buy_subscription] never change the table: a
    user who only starts the bot or asks for an invoice gets no row, and the
    invoice that was created is stored nowhere. *)
Theorem start_and_buy_keep_table :
  (forall telegram now m st,
     Bot.table (Bot.cmd_start telegram now m st).2 = Bot.table st) /\
  (forall telegram repr shop api ts callback st,
     Bot.table (Bot.buy_subscription telegram repr shop api ts callback st).2
     = Bot.table st).
Proof.
  split.
  - intros telegram now m st. bot_unfold.
    destruct (Bot.sender m) as [uid|]; [|done].
    rewrite get_remaining_requests_pair. simpl. by destruct (telegram _).
  - intros telegram repr shop api ts callback st. bot_unfold.
    destruct (from_user callback) as [uid|], (message callback) as [chat|];
      try by destruct (telegram _).
    destruct (telegram (Bot.AnswerCallbackQuery None)); simpl; [|done].
    destruct (telegram (Bot.SendMessage chat Bot.msg_creating [])); simpl; [|done].
    destruct (dict_lookup "error" _) as [reason|]; simpl;
      [by destruct (telegram _)|].
    destruct (py_truthy _); simpl; [|by destruct (telegram _)].
    destruct (dict_lookup "result" _) as [res|]; simpl; [|done].
    destruct res as [|b|n|s|l|items]; simpl; try done.
    destruct (dict_lookup "link" items) as [link|]; simpl; [|done].
    destruct link as [|b|n|url|l|its]; simpl; try done.
    destruct (dict_lookup "uuid" items) as [uuid|]; simpl; [|done].
    by destruct (telegram _).
Qed.

(** X25: when every Telegram call goes through and the provider answers
    200 with an object that has "status" "success", no "error", and a
    "result" holding a string "link" and a string "uuid", [buy_subscription]
    answers the callback, announces the invoice, posts the request for the
    user (3 USD, order id of user and second) and sends one message with the
    link button and a check button whose callback data is "check_payment_"
    followed by the uuid. *)
Theorem buy_subscription_sends_button
  telegram repr shop api ts callback st user_id chat body res url uuid :
  from_user callback = Some user_id ->
  message callback = Some chat ->
  (forall o, telegram o = true) ->
  api (make_invoice_request shop user_id 3 ts)
  = Response 200 (JsonBody (JObj body)) ->
  dict_lookup "status" body = Some (JStr "success") ->
  dict_lookup "error" body = None ->
  dict_lookup "result" body = Some (JObj res) ->
  dict_lookup "link" res = Some (JStr url) ->
  dict_lookup "uuid" res = Some (JStr uuid) ->
  Bot.buy_subscription telegram repr shop api ts callback st
  = (Bot.Ok tt,
     {| Bot.table := Bot.table st;
        Bot.outbox :=
          Bot.outbox st ++
          [Bot.AnswerCallbackQuery None;
           Bot.SendMessage chat Bot.msg_creating [];
           Bot.CreateInvoice (make_invoice_request shop user_id 3 ts);
           Bot.SendMessage chat Bot.msg_pay
             [Bot.UrlButton "💳 Перейти к оплате" url;
              Bot.CallbackButton "🔄 Проверить оплату"
                (check_payment_data uuid)]] |}).
Proof.
  intros Hu Hm Htg Hapi Hst Herr Hres Hlink Huuid.
  bot_unfold. rewrite Hu, Hm. simpl. rewrite !Htg. simpl.
  unfold SUBSCRIPTION_PRICE_3. rewrite Hapi.
  unfold invoice_result, dict_get. simpl. rewrite Hst. simpl.
  rewrite Herr, Hres. simpl.
  assert (res <> []) as Hne by (intros ->; done).
  rewrite bool_decide_eq_false_2 by done. simpl.
  rewrite Hlink. simpl. rewrite Huuid. simpl. rewrite Htg.
  unfold check_payment_data. simpl.
  by rewrite <- !(assoc_L (++)).
Qed.

Lemma buy_subscription_sends_button_witness :
  let api := fun _ : invoice_request =>
    Response 200 (JsonBody (JObj
      [("status", JStr "success");
       ("result", JObj [("uuid", JStr "INV-1");
                        ("link", JStr "https://pay.example/INV-1")])])) in
  Bot.buy_subscription (fun _ => true) (fun _ => "") "shop" api 1700000000
    Scenario.button {| Bot.table := ∅; Bot.outbox := [] |}
  = (Bot.Ok tt,
     {| Bot.table := ∅;
        Bot.outbox :=
          [] ++
          [Bot.AnswerCallbackQuery None;
           Bot.SendMessage 7 Bot.msg_creating [];
           Bot.CreateInvoice (make_invoice_request "shop" 7 3 1700000000);
           Bot.SendMessage 7 Bot.msg_pay
             [Bot.UrlButton "💳 Перейти к оплате" "https://pay.example/INV-1";
              Bot.CallbackButton "🔄 Проверить оплату"
                (check_payment_data "INV-1")]] |}).
Proof.
  intros api.
  apply (buy_subscription_sends_button (fun _ => true) (fun _ => "") "shop" api
           1700000000 Scenario.button {| Bot.table := ∅; Bot.outbox := [] |}
           7 7
           [("status", JStr "success");
            ("result", JObj [("uuid", JStr "INV-1");
                             ("link", JStr "https://pay.example/INV-1")])]
           [("uuid", JStr "INV-1"); ("link", JStr "https://pay.example/INV-1")]
           "https://pay.example/INV-1" "INV-1"); reflexivity.
Defined.

(** X26: when the invoice cannot be created, [buy_subscription] sends the
    text of the error and no button: that is so for a request that fails,
    for any status other than 200 and for any answer that is not an object
    with "status" "success", since all of them come back as a dict with the
    key "error". *)
Theorem buy_subscription_reports_error
  telegram repr shop api ts callback st user_id chat reason :
  from_user callback = Some user_id ->
  message callback = Some chat ->
  (forall o, telegram o = true) ->
  invoice_result repr (api (make_invoice_request shop user_id 3 ts))
  = error_dict reason ->
  Bot.buy_subscription telegram repr shop api ts callback st
  = (Bot.Ok tt,
     {| Bot.table := Bot.table st;
        Bot.outbox :=
          Bot.outbox st ++
          [Bot.AnswerCallbackQuery None;
           Bot.SendMessage chat Bot.msg_creating [];
           Bot.CreateInvoice (make_invoice_request shop user_id 3 ts);
           Bot.SendMessage chat (Bot.msg_create_error reason) []] |}).
Proof.
  intros Hu Hm Htg Hres. bot_unfold. rewrite Hu, Hm. simpl.
  rewrite !Htg. simpl. unfold SUBSCRIPTION_PRICE_3. rewrite Hres. simpl.
  rewrite Htg. by rewrite <- !(assoc_L (++)).
Qed.

Lemma buy_subscription_reports_error_witness :
  Bot.buy_subscription (fun _ => true) (fun _ => "") "shop"
    (fun _ => Response 500 (JsonBody (JObj [("message", JStr "bad shop")])))
    1700000000 Scenario.button {| Bot.table := ∅; Bot.outbox := [] |}
  = (Bot.Ok tt,
     {| Bot.table := ∅;
        Bot.outbox :=
          [] ++
          [Bot.AnswerCallbackQuery None;
           Bot.SendMessage 7 Bot.msg_creating [];
           Bot.CreateInvoice (make_invoice_request "shop" 7 3 1700000000);
           Bot.SendMessage 7
             (Bot.msg_create_error "Payment creation failed: bad shop") []] |}).
Proof.
  apply (buy_subscription_reports_error (fun _ => true) (fun _ => "") "shop" _
           1700000000 Scenario.button {| Bot.table := ∅; Bot.outbox := [] |}
           7 7 "Payment creation failed: bad shop"); reflexivity.
Defined.

Lemma handle_message_refused_witness :
  let m := {| Bot.chat := 7; Bot.sender := Some 7; Bot.text := Some "q" |} in
  let st := {| Bot.table := {[ 7 := UserRow None (Some 0) 10 None ]};
               Bot.outbox := [] |} in
  let notice := Bot.SendMessage 7 (Bot.msg_limit (get_time_until_midnight 103)) [] in
  Bot.handle_message (fun _ => true) (fun _ => PostFailed "down")
    100 101 102 103 m st
  = if (fun _ : Bot.output => true) notice
    then (Bot.Ok tt,
          {| Bot.table := Bot.table st; Bot.outbox := Bot.outbox st ++ [notice] |})
    else (Bot.Err Bot.TelegramError, st).
Proof.
  intros m st notice.
  apply (handle_message_refused (fun _ => true) (fun _ => PostFailed "down")
           100 101 102 103 m st 7 "q"); reflexivity.
Defined.

(** [check_payment] with every call of the Telegram API going through and
    the date in range is the [check_payment] of the first part. *)
Lemma check_payment_delivered telegram provider now callback st tr :
  (forall o, telegram o = true) ->
  in_datetime_range (now + timedelta_days 30) ->
  Bot.table (Bot.check_payment telegram provider now callback st).2
  = users (check_payment provider now callback
             {| users := Bot.table st; trace := tr |}).2 /\
  (Bot.check_payment telegram provider now callback st).1
  = match (check_payment provider now callback
             {| users := Bot.table st; trace := tr |}).1 with
    | Ret a => Bot.Ok a
    | Raise e => Bot.Err (Bot.Raised e)
    end.
Proof.
  intros Htg Ht. unfold check_payment, Bot.check_payment. bot_unfold.
  unfold bind, lift, emit, call_update_subscription, on_users, bind,
    Bot.of_outcome, Bot.on_table_raising. bot_unfold.
  destruct (data callback) as [d|], (message callback) as [chat|]; simpl;
    rewrite ?Htg; simpl; try done.
  destruct (subscript _ _) as [inv|e]; simpl; [|done].
  destruct (check_invoice_status provider inv) as [status|e]; simpl; [|done].
  destruct (py_eq_str status "paid"); simpl; rewrite ?Htg; simpl; [|done].
  destruct (from_user callback) as [uid|]; simpl; rewrite ?Htg; simpl; [|done].
  rewrite update_subscription_call_in_range;
    [|unfold in_timedelta_range; lia|done].
  simpl. rewrite ?Htg. done.
Qed.

(** X27: when the provider's status is anything but "paid",
    [check_payment] answers the callback, asks the provider and sends the
    "payment not found" message, once; the table is as before whether or not
    the calls of the Telegram API go through, and the handler raises only
    when one of these two calls does. *)
Theorem check_payment_not_found
  telegram provider now callback st d chat inv status :
  data callback = Some d ->
  message callback = Some chat ->
  split "_" d !! 2%nat = Some inv ->
  check_invoice_status provider inv = Ret status ->
  status <> JStr "paid" ->
  let notice := Bot.SendMessage chat msg_payment_not_found [] in
  Bot.check_payment telegram provider now callback st
  = if telegram (Bot.AnswerCallbackQuery None) then
      if telegram notice then
        (Bot.Ok tt,
         {| Bot.table := Bot.table st;
            Bot.outbox := Bot.outbox st ++
              [Bot.AnswerCallbackQuery None; Bot.InvoiceInfo inv; notice] |})
      else
        (Bot.Err Bot.TelegramError,
         {| Bot.table := Bot.table st;
            Bot.outbox := Bot.outbox st ++
              [Bot.AnswerCallbackQuery None; Bot.InvoiceInfo inv] |})
    else (Bot.Err Bot.TelegramError, st).
Proof.
  intros Hd Hm Hinv Hst Hne notice. subst notice.
  unfold Bot.check_payment, Bot.of_outcome. bot_unfold.
  rewrite Hd, Hm.
  destruct (telegram (Bot.AnswerCallbackQuery None)); simpl; [|done].
  unfold subscript. rewrite Hinv. simpl. rewrite Hst. simpl.
  assert (py_eq_str status "paid" = false) as ->.
  { destruct status as [|b|n|s|l|items]; simpl; try done.
    destruct (String.eqb_spec s "paid") as [->|]; done. }
  simpl. destruct (telegram _); simpl; by rewrite <- !(assoc_L (++)).
Qed.

Lemma check_payment_not_found_witness :
  let provider := fun _ : string =>
    Body (JObj [("result", JObj [("status", JStr "created")])]) in
  let telegram := fun _ : Bot.output => true in
  let st := {| Bot.table := {[ 7 := new_user_row 0 ]}; Bot.outbox := [] |} in
  let notice := Bot.SendMessage 7 msg_payment_not_found [] in
  Bot.check_payment telegram provider 5 Scenario.button st
  = if telegram (Bot.AnswerCallbackQuery None) then
      if telegram notice then
        (Bot.Ok tt,
         {| Bot.table := Bot.table st;
            Bot.outbox := Bot.outbox st ++
              [Bot.AnswerCallbackQuery None; Bot.InvoiceInfo "INV-1"; notice] |})
      else
        (Bot.Err Bot.TelegramError,
         {| Bot.table := Bot.table st;
            Bot.outbox := Bot.outbox st ++
              [Bot.AnswerCallbackQuery None; Bot.InvoiceInfo "INV-1"] |})
    else (Bot.Err Bot.TelegramError, st).
Proof.
  intros provider telegram st notice.
  apply (check_payment_not_found telegram provider 5 Scenario.button st
           "check_payment_INV-1" 7 "INV-1" (JStr "created"));
    try reflexivity.
  discriminate.
Defined.

(** * From the button to the access *)



(** * Calls that overlap *)

Section overlap_lemmas.

(** The write of a call on the table that its SELECT saw is the call. *)
Lemma check_access_write_select now0 now1 uid db :
  check_access_write (strftime_Ymd now0) now1 uid
    (check_access_select uid db) db
  = (Ret (check_access now0 now1 uid db).1, (check_access now0 now1 uid db).2).
Proof.
  unfold check_access_write, check_access_select, check_access.
  destruct (db !! uid) as [r|]; [|done].
  destruct (subscription_active _ _); [done|].
  by repeat case_bool_decide.
Qed.

(** A call whose two steps follow each other is a whole call of
    [check_access], as in [step] and [serve]. *)
Lemma execute_whole_call s call now0 now1 uid :
  let s' := execute (execute s (Select call now0 uid)) (Write call now1) in
  shared s' = (check_access now0 now1 uid (shared s)).2 /\
  answers s' = answers s ++ [(call, Ret (check_access now0 now1 uid (shared s)).1)].
Proof.
  simpl. rewrite lookup_insert_eq. rewrite check_access_write_select. done.
Qed.

End overlap_lemmas.

(** C1, at the failing input: two calls of [check_access] for a user with
    9 requests today whose SELECTs both come before either write are both
    answered true and leave 11 requests, where the precedence applied to one
    call after the other lets the first in, with 10 requests, and refuses
    the second; for a user without a row the second of two such calls
    raises on its INSERT. *)
Theorem overlapping_calls_break_precedence :
  let db : users_table := {[ 7 := UserRow None (Some 0) 9 None ]} in
  let overlap := [Select 1 100 7; Select 2 101 7; Write 1 102; Write 2 103] in
  let s := interleave overlap {| shared := db; pending := ∅; answers := [] |} in
  let fresh :=
    interleave overlap {| shared := ∅; pending := ∅; answers := [] |} in
  answers s = [(1%nat, Ret true); (2%nat, Ret true)] /\
  shared s = {[ 7 := UserRow None (Some 0) 11 None ]} /\
  Spec.admission 0 102 7 db = (true, {[ 7 := UserRow None (Some 0) 10 None ]}) /\
  Spec.admission 0 103 7 {[ 7 := UserRow None (Some 0) 10 None ]}
  = (false, {[ 7 := UserRow None (Some 0) 10 None ]}) /\
  answers fresh = [(1%nat, Ret true); (2%nat, Raise IntegrityError)].
Proof.
  intros db overlap s fresh.
  split; [|split; [|split; [|split]]]; vm_compute; reflexivity.
Qed.

(** C8, at the failing input: after nine requests of one user, made one
    after the other on one day, the table is within the limit; two more
    calls of [check_access] whose SELECTs both come before either write are
    both answered true and leave [requests_today] at 11, above
    [MAX_FREE_REQUESTS_PER_DAY]. *)
Theorem overlapping_calls_exceed_limit :
  let db := run (replicate 9 (Op_check_access 100 101 7)) ∅ in
  let s := interleave [Select 1 102 7; Select 2 102 7; Write 1 103; Write 2 103]
             {| shared := db; pending := ∅; answers := [] |} in
  quota_bounded db /\
  answers s = [(1%nat, Ret true); (2%nat, Ret true)] /\
  requests_today <$> (shared s !! 7) = Some 11 /\
  ~ quota_bounded (shared s).
Proof.
  intros db s.
  assert (shared s !! 7 = Some (UserRow None (Some 0) 11 None)) as Hrow
    by (vm_compute; reflexivity).
  split; [|split; [|split]].
  - apply (bool_decide_unpack _). vm_compute. exact I.
  - vm_compute. reflexivity.
  - by rewrite Hrow.
  - intros Hq. apply Hq in Hrow. vm_compute in Hrow. by apply Hrow.
Qed.

(** C7 as worded fails across midnight: after a first request in the last
    microsecond of a day, [get_remaining_requests] read at the midnight that
    follows gives 10, not 9. *)
Lemma remaining_after_midnight_counterexample :
  (check_access 86399999999 86399999999 7 ∅).1 = true /\
  (get_remaining_requests 86400000000 7
     (check_access 86399999999 86399999999 7 ∅).2).1 = 10 /\
  (get_remaining_requests 86400000000 7
     (check_access 86399999999 86399999999 7 ∅).2).1 <> 9.
Proof. split; [|split]; vm_compute; [reflexivity..|discriminate]. Qed.
